(** * Trading analytics front end: a shallow embedding and its properties

    The React components of the dashboard keep their state in plain
    JavaScript arrays and objects and update it with pure updater
    functions ([prev => next]).  This development embeds those updaters
    and the helper functions around them, and proves what the design
    document says about them.

    Layout: Part I holds the definitions, one module per source file;
    Part II holds the lemmas and theorems. *)

From Stdlib Require Import ZArith QArith List String Ascii Bool Lia Arith.
From Stdlib Require Import Qabs DecimalString Sorted Permutation Reals Lra.
Import ListNotations.

Set Warnings "-register-all".
Close Scope Q_scope.
Open Scope string_scope.
Open Scope list_scope.

(* ================================================================== *)
(** * Part I: definitions *)
(* ================================================================== *)

(** ** JavaScript values and the built-ins the components use *)

Module JS.

(** A JavaScript number: NaN, the two infinities, or a finite value.
    Finite values are kept as exact rationals; both zeros are [Fin 0],
    and rounding to a double is not modelled. *)
Inductive number : Type :=
| NaN
| NegInf
| PosInf
| Fin (q : Q).

Definition Qlt_bool (a b : Q) : bool := negb (Qle_bool b a).

(** [a > b]; every comparison with NaN is false. *)
Definition gt (a b : number) : bool :=
  match a, b with
  | NaN, _ => false
  | _, NaN => false
  | PosInf, PosInf => false
  | PosInf, _ => true
  | _, PosInf => false
  | NegInf, _ => false
  | Fin _, NegInf => true
  | Fin x, Fin y => Qlt_bool y x
  end.

(** [a * b]; zero times an infinity is NaN. *)
Definition mul (a b : number) : number :=
  match a, b with
  | NaN, _ => NaN
  | _, NaN => NaN
  | Fin x, Fin y => Fin (x * y)
  | Fin x, PosInf | PosInf, Fin x =>
      if Qeq_bool x 0 then NaN else if Qlt_bool 0 x then PosInf else NegInf
  | Fin x, NegInf | NegInf, Fin x =>
      if Qeq_bool x 0 then NaN else if Qlt_bool 0 x then NegInf else PosInf
  | PosInf, PosInf | NegInf, NegInf => PosInf
  | PosInf, NegInf | NegInf, PosInf => NegInf
  end.

Definition of_Z (z : Z) : number := Fin (inject_Z z).

(** ToBoolean on a number: NaN and zero are falsy. *)
Definition number_truthy (n : number) : bool :=
  match n with
  | NaN => false
  | Fin q => negb (Qeq_bool q 0)
  | _ => true
  end.

(** [x || d] on numbers. *)
Definition number_or (x d : number) : number :=
  if number_truthy x then x else d.

(** A value as [JSON.parse] produces it, plus [undefined].  An object is
    its list of own properties in insertion order. *)
Inductive value : Type :=
| VUndefined
| VNull
| VBool (b : bool)
| VNumber (n : number)
| VString (s : string)
| VArray (items : list value)
| VObject (fields : list (string * value)).

Definition nullish (v : value) : bool :=
  match v with
  | VUndefined | VNull => true
  | _ => false
  end.

(** ToBoolean. *)
Definition truthy (v : value) : bool :=
  match v with
  | VUndefined | VNull => false
  | VBool b => b
  | VNumber n => number_truthy n
  | VString s => negb (s =? EmptyString)
  | VArray _ | VObject _ => true
  end.


(** Own property of an object; a missing key reads as [undefined]. *)
Fixpoint field (k : string) (fields : list (string * value)) : value :=
  match fields with
  | [] => VUndefined
  | (k', v) :: rest => if k' =? k then v else field k rest
  end.

Definition index_key (i : nat) : string :=
  NilZero.string_of_uint (Nat.to_uint i).

(** The index an array key denotes, when it is the canonical decimal
    spelling of a position inside the array. *)
Definition key_index (k : string) (len : nat) : option nat :=
  find (fun i => index_key i =? k) (seq 0 len).

Fixpoint string_nth (i : nat) (s : string) : option ascii :=
  match s, i with
  | EmptyString, _ => None
  | String c _, O => Some c
  | String _ r, S j => string_nth j r
  end.

(** [v[k]] for a [v] that is neither [null] nor [undefined]. *)
Definition prop (k : string) (v : value) : value :=
  match v with
  | VObject fs => field k fs
  | VArray items =>
      if k =? "length" then VNumber (of_Z (Z.of_nat (List.length items)))
      else match key_index k (List.length items) with
           | Some i => nth i items VUndefined
           | None => VUndefined
           end
  | VString s =>
      if k =? "length" then VNumber (of_Z (Z.of_nat (String.length s)))
      else match key_index k (String.length s) with
           | Some i => match string_nth i s with
                       | Some c => VString (String c EmptyString)
                       | None => VUndefined
                       end
           | None => VUndefined
           end
  | _ => VUndefined
  end.

(** [v.k]: reading a property of [null] or [undefined] throws a
    TypeError, which is [None] here. *)
Definition get (k : string) (v : value) : option value :=
  if nullish v then None else Some (prop k v).

(** [v?.[k]]: optional chaining yields [undefined] instead of throwing. *)
Definition get_opt (k : string) (v : value) : value :=
  if nullish v then VUndefined else prop k v.

(** [v === "s"] for a string literal. *)
Definition is_string (s : string) (v : value) : bool :=
  match v with
  | VString s' => s' =? s
  | _ => false
  end.

Definition is_undefined (v : value) : bool :=
  match v with
  | VUndefined => true
  | _ => false
  end.

(** [Array.prototype.slice(start, end)]: a negative bound counts from the
    end of the array, both bounds are clamped to [0, length], and an
    omitted [end] is the length. *)
Definition clamp_bound (len : Z) (b : Z) : Z :=
  if (b <? 0)%Z then Z.max (len + b) 0 else Z.min b len.

Definition slice {A : Type} (start : Z) (end_ : option Z) (l : list A)
  : list A :=
  let len := Z.of_nat (List.length l) in
  let k := clamp_bound len start in
  let final := match end_ with
               | None => len
               | Some e => clamp_bound len e
               end in
  firstn (Z.to_nat (final - k)) (skipn (Z.to_nat k) l).

End JS.

(** ** The capability table of the upload page and of the upload widget *)

(** The payload of [/api/analytics] as far as the capability gate reads
    it: the two count fields, either of which may be missing.  Counts are
    integers. *)
Record analytics_counts : Type := {
  data_points : option Z;
  tick_count : option (list (string * Z))
}.

(** One entry of the capability object.  The widget's entries carry no
    icon and no description. *)
Record capability : Type := {
  enabled : bool;
  required : Z;
  name : string;
  icon : option string;
  description : option string
}.

(** Own property of a capability object, by key. *)
Fixpoint capability_of (k : string) (caps : list (string * capability))
  : option capability :=
  match caps with
  | [] => None
  | (k', c) :: rest => if k' =? k then Some c else capability_of k rest
  end.

(** [Object.values] and [Object.keys]. *)
Definition Object_values {A : Type} (o : list (string * A)) : list A :=
  map snd o.

Definition Object_keys {A : Type} (o : list (string * A)) : list string :=
  map fst o.

Module UploadPage.

(** [analytics?.data_points || 0]; a missing or zero count is 0. *)
Definition dataPoints (analytics : option analytics_counts) : Z :=
  match analytics with
  | None => 0%Z
  | Some a =>
      match data_points a with
      | None => 0%Z
      | Some n => if (n =? 0)%Z then 0%Z else n
      end
  end.

Definition entry (on : bool) (req : Z) (nm ic descr : string) : capability :=
  {| enabled := on; required := req; name := nm;
     icon := Some ic; description := Some descr |}.

(** The object literal [getCapabilities] returns, as a function of the
    local [dataPoints]. *)
Definition capabilitiesFor (dataPoints : Z) : list (string * capability) :=
  [ ("basicPriceTracking",
     entry (1 <=? dataPoints)%Z 1 "Price Tracking" "📊"
           "Real-time price monitoring");
    ("volumeAnalysis",
     entry (10 <=? dataPoints)%Z 10 "Volume Analysis" "📈"
           "Trading volume metrics");
    ("zScoreCalculation",
     entry (20 <=? dataPoints)%Z 20 "Z-Score Calculation" "📉"
           "Statistical price deviation");
    ("volatilityMetrics",
     entry (50 <=? dataPoints)%Z 50 "Volatility Metrics" "⚡"
           "Price volatility analysis");
    ("correlationAnalysis",
     entry (100 <=? dataPoints)%Z 100 "Correlation Analysis" "🔗"
           "Multi-asset correlation");
    ("spreadTrading",
     entry (100 <=? dataPoints)%Z 100 "Spread Trading" "↔️"
           "Pair spread calculations");
    ("hedgeRatioCalc",
     entry (150 <=? dataPoints)%Z 150 "Hedge Ratio" "⚖️"
           "Optimal hedge ratios");
    ("adfStationarity",
     entry (200 <=? dataPoints)%Z 200 "ADF Test (Stationarity)" "🔬"
           "Mean reversion testing");
    ("fullHistoricalCharts",
     entry (200 <=? dataPoints)%Z 200 "Full Historical Charts" "📊"
           "Complete chart history") ].

Definition getCapabilities (analytics : option analytics_counts)
  : list (string * capability) :=
  capabilitiesFor (dataPoints analytics).

(** The progress header of the page. *)
Definition enabledCount (analytics : option analytics_counts) : nat :=
  List.length (filter enabled (Object_values (getCapabilities analytics))).

Definition totalCount (analytics : option analytics_counts) : nat :=
  List.length (Object_keys (getCapabilities analytics)).

(** [(enabledCount / totalCount) * 100], as an exact rational. *)
Definition progressPercent (analytics : option analytics_counts) : Q :=
  (inject_Z (Z.of_nat (enabledCount analytics))
   / inject_Z (Z.of_nat (totalCount analytics)) * 100)%Q.

(** [analytics?.tick_count || {}] and the number of its keys. *)
Definition tickCounts (analytics : option analytics_counts)
  : list (string * Z) :=
  match analytics with
  | None => []
  | Some a => match tick_count a with
              | None => []
              | Some tc => tc
              end
  end.

Definition symbolCount (analytics : option analytics_counts) : nat :=
  List.length (Object_keys (tickCounts analytics)).

End UploadPage.

Module OHLCUploadWidget.

(** [Object.values(analytics.tick_count).reduce((a, b) => a + b, 0)] when
    the per-symbol counts are present, 0 otherwise. *)
Definition dataPoints (analytics : option analytics_counts) : Z :=
  match analytics with
  | None => 0%Z
  | Some a =>
      match tick_count a with
      | None => 0%Z
      | Some tc => fold_left (fun a b => (a + b)%Z) (Object_values tc) 0%Z
      end
  end.

Definition entry (on : bool) (req : Z) (nm : string) : capability :=
  {| enabled := on; required := req; name := nm;
     icon := None; description := None |}.

Definition capabilitiesFor (dataPoints : Z) : list (string * capability) :=
  [ ("basicPriceTracking", entry (1 <=? dataPoints)%Z 1 "Price Tracking");
    ("volumeAnalysis", entry (10 <=? dataPoints)%Z 10 "Volume Analysis");
    ("zScoreCalculation",
     entry (20 <=? dataPoints)%Z 20 "Z-Score Calculation");
    ("volatilityMetrics",
     entry (50 <=? dataPoints)%Z 50 "Volatility Metrics");
    ("correlationAnalysis",
     entry (100 <=? dataPoints)%Z 100 "Correlation Analysis");
    ("spreadTrading", entry (100 <=? dataPoints)%Z 100 "Spread Trading");
    ("hedgeRatioCalc", entry (150 <=? dataPoints)%Z 150 "Hedge Ratio");
    ("adfStationarity",
     entry (200 <=? dataPoints)%Z 200 "ADF Test (Stationarity)");
    ("fullHistoricalCharts",
     entry (200 <=? dataPoints)%Z 200 "Full Historical Charts") ].

Definition getCapabilities (analytics : option analytics_counts)
  : list (string * capability) :=
  capabilitiesFor (dataPoints analytics).

Definition enabledCount (analytics : option analytics_counts) : nat :=
  List.length (filter enabled (Object_values (getCapabilities analytics))).

Definition totalCount (analytics : option analytics_counts) : nat :=
  List.length (Object_keys (getCapabilities analytics)).

End OHLCUploadWidget.

(** ** The runtime: built-ins whose results the components only pass on *)

(** String parsing, string conversion, serialisation and date formatting
    are services of the JavaScript engine and of the browser's locale.
    The components never look inside their results, so they are an
    interface here; every theorem holds for every implementation of it. *)
Class Runtime : Type := {
  (** [parseFloat(s)] on a string *)
  parseFloatString : string -> JS.number;
  (** [Number(s)] on a string *)
  StringToNumber : string -> JS.number;
  (** [String(v)] *)
  ToString : JS.value -> string;
  (** [JSON.stringify(v)]; [None] is the result [undefined] *)
  JSON_stringify : JS.value -> option string;
  (** [new Date(v).toLocaleTimeString()] *)
  Date_toLocaleTimeString : JS.value -> string;
  (** [new Date(v).toLocaleString()] *)
  Date_toLocaleString : JS.value -> string;
  (** [s.toUpperCase()] *)
  toUpperCase : string -> string
}.

Section Coercions.
Context {RT : Runtime}.


(** ToNumber, the coercion behind [>] and [*]. *)
Definition ToNumber (v : JS.value) : JS.number :=
  match v with
  | JS.VUndefined => JS.NaN
  | JS.VNull => JS.Fin 0
  | JS.VBool b => JS.Fin (if b then 1 else 0)
  | JS.VNumber n => n
  | JS.VString s => StringToNumber s
  | JS.VArray _ | JS.VObject _ => StringToNumber (ToString v)
  end.

End Coercions.

(** The one-character string holding a double quote. *)
Definition dquote : string := String (ascii_of_nat 34) EmptyString.

Definition string_of_Z (z : Z) : string :=
  NilZero.string_of_int (Z.to_int z).

(** ** Alert rules and HTTP exchanges *)

Module Alert.

(** A rule id as the backend serialises it: a JSON integer or a JSON
    string.  [!==] never identifies a number with a string. *)
Inductive id_t : Type :=
| IdNum (n : Z)
| IdStr (s : string).

Definition id_eqb (a b : id_t) : bool :=
  match a, b with
  | IdNum x, IdNum y => (x =? y)%Z
  | IdStr x, IdStr y => (x =? y)%string
  | _, _ => false
  end.

Record t : Type := {
  id : id_t;
  name : string;
  symbol : string;
  condition : string;
  value : JS.number
}.

End Alert.

Module Http.

(** What [await response.json()] gives: the decoded payload, or a
    rejection with its message. *)
Inductive json_result (A : Type) : Type :=
| JsonError (message : string)
| JsonOk (payload : A).
Arguments JsonError {A} message.
Arguments JsonOk {A} payload.

(** A response as the callers read it.  [errorField] is [errorData.error]
    of an error body when that is a non-empty string. *)
Record response (A : Type) : Type := {
  ok : bool;
  status : Z;
  statusText : string;
  errorField : option string;
  json : json_result A
}.
Arguments ok {A} r.
Arguments status {A} r.
Arguments statusText {A} r.
Arguments errorField {A} r.
Arguments json {A} r.

(** The outcome of [await fetch(...)]. *)
Inductive fetched (A : Type) : Type :=
| NetworkError (message : string)
| Received (r : response A).
Arguments NetworkError {A} message.
Arguments Received {A} r.

(** [`HTTP ${response.status}: ${response.statusText}`] *)
Definition statusLine {A : Type} (r : response A) : string :=
  ("HTTP " ++ string_of_Z (status r) ++ ": " ++ statusText r)%string.

(** [errorData.error || `HTTP ${response.status}: ${response.statusText}`] *)
Definition errorMessage {A : Type} (r : response A) : string :=
  match errorField r with
  | Some e => e
  | None => statusLine r
  end.

End Http.

(** The body of [GET /api/alerts]: [Array.isArray(data) ? data : []]
    separates a list of rules from anything else. *)
Inductive alerts_payload : Type :=
| NotAnArray
| AlertArray (rules : list Alert.t).

Definition alertsArray (data : alerts_payload) : list Alert.t :=
  match data with
  | NotAnArray => []
  | AlertArray rules => rules
  end.

(** The body of [GET /api/alerts/triggered], same test. *)
Inductive triggered_payload : Type :=
| NotAnArrayT
| TriggeredArray (items : list JS.value).

Definition triggeredArray (data : triggered_payload) : list JS.value :=
  match data with
  | NotAnArrayT => []
  | TriggeredArray items => items
  end.

(** State of the alerts hook and of the alerts component. *)
Record alerts_state : Type := {
  alerts : list Alert.t;
  triggeredAlerts : list JS.value;
  loading : bool;
  error : option string
}.

Definition initial_alerts_state : alerts_state :=
  {| alerts := []; triggeredAlerts := []; loading := false; error := None |}.

Definition setAlerts (f : list Alert.t -> list Alert.t) (st : alerts_state)
  : alerts_state :=
  {| alerts := f (alerts st); triggeredAlerts := triggeredAlerts st;
     loading := loading st; error := error st |}.

Definition setTriggeredAlerts (f : list JS.value -> list JS.value)
  (st : alerts_state) : alerts_state :=
  {| alerts := alerts st; triggeredAlerts := f (triggeredAlerts st);
     loading := loading st; error := error st |}.

Definition setLoading (b : bool) (st : alerts_state) : alerts_state :=
  {| alerts := alerts st; triggeredAlerts := triggeredAlerts st;
     loading := b; error := error st |}.

Definition setError (e : option string) (st : alerts_state) : alerts_state :=
  {| alerts := alerts st; triggeredAlerts := triggeredAlerts st;
     loading := loading st; error := e |}.

(** Work an async function leaves behind: a refresh of the rules, now or
    after a delay in milliseconds. *)
Inductive command : Type :=
| FetchAlerts (delay : Z).

(** How an async function settles. *)
Inductive settled (A : Type) : Type :=
| Resolved (result : A)
| Threw (message : string).
Arguments Resolved {A} result.
Arguments Threw {A} message.

(** [alert.id !== alertId] *)
Definition id_differs (alertId : Alert.id_t) (alert : Alert.t) : bool :=
  negb (Alert.id_eqb (Alert.id alert) alertId).

(** A stream message after [JSON.parse]; [None] when parsing threw. *)
Definition parsed_message : Type := option JS.value.

(** The [alert_triggered] branch shared by the two stream listeners:
    [setTriggeredAlerts(prev => [data.alert, ...prev.slice(0, 99)])]. *)
Definition pushTriggered (data : JS.value) (prev : list JS.value)
  : list JS.value :=
  JS.prop "alert" data :: JS.slice 0 (Some 99%Z) prev.

Module useAlertsManager.

(** [fetchAlerts], from the outcome of its request. *)
Definition fetchAlerts (r : Http.fetched alerts_payload) (st : alerts_state)
  : alerts_state :=
  let st1 := setError None (setLoading true st) in
  let failed (message : string) :=
    setLoading false (setAlerts (fun _ => []) (setError (Some message) st1)) in
  match r with
  | Http.NetworkError message => failed message
  | Http.Received resp =>
      if negb (Http.ok resp) then failed (Http.statusLine resp)
      else match Http.json resp with
           | Http.JsonError message => failed message
           | Http.JsonOk data =>
               setLoading false (setAlerts (fun _ => alertsArray data) st1)
           end
  end.

(** [fetchTriggeredAlerts]: a 404 or 500 is skipped silently and every
    failure keeps the list. *)
Definition fetchTriggeredAlerts (r : Http.fetched triggered_payload)
  (st : alerts_state) : alerts_state :=
  match r with
  | Http.NetworkError _ => st
  | Http.Received resp =>
      if negb (Http.ok resp) then st
      else match Http.json resp with
           | Http.JsonError _ => st
           | Http.JsonOk data =>
               setTriggeredAlerts (fun _ => triggeredArray data) st
           end
  end.

(** [deleteAlert(alertId)], from the outcome of the DELETE request: the
    new state, the refresh it schedules, and how the promise settles. *)
Definition deleteAlert {A : Type} (alertId : Alert.id_t)
  (r : Http.fetched A) (st : alerts_state)
  : alerts_state * list command * settled unit :=
  let st1 := setError None st in
  let failed (message : string) :=
    (setError (Some ("Failed to delete alert: " ++ message)%string) st1,
     [FetchAlerts 0], Threw message) in
  match r with
  | Http.NetworkError message => failed message
  | Http.Received resp =>
      if negb (Http.ok resp) then failed (Http.errorMessage resp)
      else (setAlerts (filter (id_differs alertId)) st1,
            [FetchAlerts 100], Resolved tt)
  end.

(** [createAlert(alertData)], from the outcome of the POST request and of
    the refresh awaited after it. *)
Definition createAlert {A : Type} (r : Http.fetched A)
  (refresh : Http.fetched alerts_payload) (st : alerts_state)
  : alerts_state * settled A :=
  let st1 := setError None st in
  let failed (message : string) :=
    (setError (Some ("Failed to create alert: " ++ message)%string) st1,
     Threw message) in
  match r with
  | Http.NetworkError message => failed message
  | Http.Received resp =>
      if negb (Http.ok resp) then failed (Http.errorMessage resp)
      else match Http.json resp with
           | Http.JsonError message => failed message
           | Http.JsonOk result => (fetchAlerts refresh st1, Resolved result)
           end
  end.

(** [alert.id !== alertId] on a triggered alert, which is whatever the
    stream delivered.  Reading [id] of [null] or [undefined] throws. *)
Definition triggered_id_differs (alertId : Alert.id_t) (alert : JS.value)
  : option bool :=
  match JS.get "id" alert with
  | None => None
  | Some (JS.VNumber (JS.Fin q)) =>
      Some (match alertId with
            | Alert.IdNum n => negb (Qeq_bool q (inject_Z n))
            | Alert.IdStr _ => true
            end)
  | Some (JS.VString s) =>
      Some (match alertId with
            | Alert.IdStr s' => negb (s =? s')
            | Alert.IdNum _ => true
            end)
  | Some _ => Some true
  end.

(** [Array.prototype.filter] with a callback that may throw. *)
Fixpoint filter_throwing {A : Type} (f : A -> option bool) (l : list A)
  : option (list A) :=
  match l with
  | [] => Some []
  | x :: rest =>
      match f x with
      | None => None
      | Some keep =>
          match filter_throwing f rest with
          | None => None
          | Some rest' => Some (if keep then x :: rest' else rest')
          end
      end
  end.

(** [dismissTriggeredAlert(alertId)]; [None] when the updater throws. *)
Definition dismissTriggeredAlert (alertId : Alert.id_t)
  (prev : list JS.value) : option (list JS.value) :=
  filter_throwing (triggered_id_differs alertId) prev.

(** The stream listener: only an [alert_triggered] message changes the
    history; a message that does not parse, or whose [type] cannot be
    read, is caught and ignored. *)
Definition onmessage (event : parsed_message) (st : alerts_state)
  : alerts_state :=
  match event with
  | None => st
  | Some data =>
      match JS.get "type" data with
      | None => st
      | Some ty =>
          if JS.is_string "alert_triggered" ty
          then setTriggeredAlerts (pushTriggered data) st
          else st
      end
  end.

(** The history after a run of stream messages, oldest message first. *)
Definition run (events : list parsed_message) (st : alerts_state)
  : alerts_state :=
  fold_left (fun s e => onmessage e s) events st.

End useAlertsManager.

Module AlertsManager.

(** The component's [deleteAlert] also awaits the response body before it
    touches the list, and it swallows the failure instead of rethrowing. *)
Definition deleteAlert {A : Type} (alertId : Alert.id_t)
  (r : Http.fetched A) (st : alerts_state)
  : alerts_state * list command * settled unit :=
  let st1 := setError None st in
  let failed (message : string) :=
    (setError (Some ("Failed to delete alert: " ++ message)%string) st1,
     [FetchAlerts 0], Resolved tt) in
  match r with
  | Http.NetworkError message => failed message
  | Http.Received resp =>
      if negb (Http.ok resp) then failed (Http.errorMessage resp)
      else match Http.json resp with
           | Http.JsonError message => failed message
           | Http.JsonOk _ =>
               (setAlerts (filter (id_differs alertId)) st1,
                [FetchAlerts 100], Resolved tt)
           end
  end.

Definition onmessage (event : parsed_message) (st : alerts_state)
  : alerts_state :=
  match event with
  | None => st
  | Some data =>
      match JS.get "type" data with
      | None => st
      | Some ty =>
          if JS.is_string "alert_triggered" ty
          then setTriggeredAlerts (pushTriggered data) st
          else st
      end
  end.

Definition run (events : list parsed_message) (st : alerts_state)
  : alerts_state :=
  fold_left (fun s e => onmessage e s) events st.

End AlertsManager.

(** ** The alert creation form *)

Module AlertModal.

Record formData : Type := {
  name : string;
  condition : string;
  symbol : string;
  value : string
}.

(** The argument of [useState]. *)
Definition initialFormData : formData :=
  {| name := EmptyString; condition := "zscore_above"; symbol := EmptyString; value := "2.0" |}.

(** The [option] elements of the condition [select]. *)
Inductive condition_option : Type :=
| zscore_above
| zscore_below
| price_above
| price_below.

(** The [value] attribute of each option. *)
Definition option_value (o : condition_option) : string :=
  match o with
  | zscore_above => "zscore_above"
  | zscore_below => "zscore_below"
  | price_above => "price_above"
  | price_below => "price_below"
  end.

(** What can happen to the form: the modal opens (with the dashboard's
    selected symbol, empty when there is none), or one of the four inputs
    changes.  The [select] reports the value of one of its options. *)
Inductive form_event : Type :=
| Open (selectedSymbol1 : string)
| ChangeName (text : string)
| ChangeSymbol (text : string)
| ChangeCondition (choice : condition_option)
| ChangeValue (text : string).

(** [s || d] on strings: the empty string is falsy. *)
Definition string_or (s d : string) : string :=
  if s =? EmptyString then d else s.

Section Form.
Context {RT : Runtime}.

Definition apply_event (e : form_event) (f : formData) : formData :=
  match e with
  | Open selectedSymbol1 =>
      {| name := (string_or selectedSymbol1 "Symbol" ++ " Alert")%string;
         condition := "zscore_above";
         symbol := string_or selectedSymbol1 EmptyString;
         value := "2.0" |}
  | ChangeName text =>
      {| name := text; condition := condition f;
         symbol := symbol f; value := value f |}
  | ChangeSymbol text =>
      {| name := name f; condition := condition f;
         symbol := toUpperCase text; value := value f |}
  | ChangeCondition choice =>
      {| name := name f; condition := option_value choice;
         symbol := symbol f; value := value f |}
  | ChangeValue text =>
      {| name := name f; condition := condition f;
         symbol := symbol f; value := text |}
  end.

(** The form after a history of events, oldest first. *)
Definition form_after (events : list form_event) : formData :=
  fold_left (fun f e => apply_event e f) events initialFormData.





(** What the user sees once the request has settled, and whether
    [onSuccess] is called. *)
Definition afterResponse (r : Http.fetched string)
  (bodyText : string) : string * bool :=
  let failed (message : string) :=
    (("Error creating alert: " ++ message)%string, false) in
  match r with
  | Http.NetworkError message => failed message
  | Http.Received resp =>
      if negb (Http.ok resp)
      then failed (if bodyText =? EmptyString
                   then ("HTTP " ++ string_of_Z (Http.status resp))%string
                   else bodyText)
      else match Http.json resp with
           | Http.JsonError message => failed message
           | Http.JsonOk created =>
               (("✅ Alert " ++ dquote ++ created ++ dquote ++ " created!")%string,
                true)
           end
  end.

End Form.

End AlertModal.

(** ** The notifications widget *)

Module NotificationsWidget.

(** [a - b] on numbers. *)
Definition sub (a b : JS.number) : JS.number :=
  match a, b with
  | JS.NaN, _ => JS.NaN
  | _, JS.NaN => JS.NaN
  | JS.Fin x, JS.Fin y => JS.Fin (x - y)
  | JS.PosInf, JS.PosInf => JS.NaN
  | JS.NegInf, JS.NegInf => JS.NaN
  | JS.PosInf, _ => JS.PosInf
  | JS.NegInf, _ => JS.NegInf
  | JS.Fin _, JS.PosInf => JS.NegInf
  | JS.Fin _, JS.NegInf => JS.PosInf
  end.

(** [condition.replace(/_/g, ' ')] *)
Fixpoint underscores_to_spaces (s : string) : string :=
  match s with
  | EmptyString => EmptyString
  | String c rest =>
      String (if Ascii.eqb c "_"%char then " "%char else c)
             (underscores_to_spaces rest)
  end.

Section Widget.
Context {RT : Runtime}.

(** [formatTime]: the alert's timestamp is in seconds. *)
Definition formatTime (timestamp : JS.value) : string :=
  Date_toLocaleTimeString
    (JS.VNumber (JS.mul (ToNumber timestamp) (JS.of_Z 1000))).

Definition getConditionText (condition : string) : string :=
  toUpperCase (underscores_to_spaces condition).

(** The comparator [(a, b) => b.timestamp - a.timestamp]; reading the
    timestamp of [null] or [undefined] throws. *)
Definition compareFn (a b : JS.value) : option JS.number :=
  match JS.get "timestamp" b, JS.get "timestamp" a with
  | Some tb, Some ta => Some (sub (ToNumber tb) (ToNumber ta))
  | _, _ => None
  end.

(** [Array.prototype.sort] is stable: an element moves behind another
    only when the comparator is positive for the pair.  For a comparator
    that orders its arguments consistently, as this one does on numeric
    timestamps, the result is this insertion sort. *)
Fixpoint insert_sorted (x : JS.value) (l : list JS.value)
  : option (list JS.value) :=
  match l with
  | [] => Some [x]
  | y :: rest =>
      match compareFn x y with
      | None => None
      | Some d =>
          if JS.gt d (JS.Fin 0)
          then match insert_sorted x rest with
               | None => None
               | Some rest' => Some (y :: rest')
               end
          else Some (x :: l)
      end
  end.

Fixpoint sort (l : list JS.value) : option (list JS.value) :=
  match l with
  | [] => Some []
  | x :: rest =>
      match sort rest with
      | None => None
      | Some rest' => insert_sorted x rest'
      end
  end.

(** Rendering the widget sorts its [triggeredAlerts] prop in place: the
    array it was handed holds the sorted order afterwards.  An empty
    array is shown as a placeholder and is not sorted.  [None] when the
    comparator throws. *)
Definition render (triggeredAlerts : list JS.value)
  : option (list JS.value) :=
  match triggeredAlerts with
  | [] => Some []
  | _ => sort triggeredAlerts
  end.

End Widget.

End NotificationsWidget.

(** ** The dashboard *)

Module HistoryPoint.

(** A point of [zscoreHistory] or of [spreadHistory]; [reading] is the
    field called [zscore] in the one and [spread] in the other. *)
Record t : Type := {
  timestamp : string;
  reading : JS.value;
  time : JS.number
}.

End HistoryPoint.

Module ChartPoint.

Record t : Type := {
  timestamp : string;
  fullTimestamp : string;
  price : JS.number;
  volume : JS.number;
  close : JS.number;
  high : JS.number;
  low : JS.number;
  open : JS.number;
  originalIndex : nat
}.

End ChartPoint.

Module TradingDashboard.

Definition MAX_HISTORY_POINTS : nat := 100.

(** [a[a.length - 1]]: [undefined] on an empty array. *)
Definition last_point (prev : list HistoryPoint.t) : option HistoryPoint.t :=
  nth_error prev (List.length prev - 1).



Section Dashboard.
Context {RT : Runtime}.

(** [JSON.stringify(a) !== JSON.stringify(b)] *)
Definition stringify_differs (a b : JS.value) : bool :=
  match JSON_stringify a, JSON_stringify b with
  | None, None => false
  | Some x, Some y => negb (x =? y)
  | _, _ => true
  end.

(** The updater inside [updateAnalytics]: the analytics state after a
    new payload.  [None] when reading a field of the payload throws. *)
Definition updateAnalytics (newAnalytics : JS.value) (prev : JS.value)
  : option JS.value :=
  if negb (JS.truthy prev) then Some newAnalytics
  else
    match JS.get "price" prev, JS.get "price" newAnalytics with
    | Some p, Some p' =>
        let priceChanged := stringify_differs p p' in
        let zscoreChanged :=
          stringify_differs (JS.prop "zscore" prev)
                            (JS.prop "zscore" newAnalytics) in
        let spreadChanged :=
          stringify_differs (JS.prop "spread" prev)
                            (JS.prop "spread" newAnalytics) in
        if priceChanged || zscoreChanged || spreadChanged
        then Some newAnalytics
        else Some prev
    | _, _ => None
    end.

(** The updater of [setZscoreHistory] and of [setSpreadHistory]:
    [dataTimestamp] is [data.timestamp], [reading] the z-score or the
    spread picked from the payload, [now] is [Date.now()]. *)
Definition pushHistory (dataTimestamp reading : JS.value) (now : JS.number)
  (prev : list HistoryPoint.t) : list HistoryPoint.t :=
  let timestamp := Date_toLocaleTimeString dataTimestamp in
  let duplicate :=
    match last_point prev with
    | Some lastPoint => HistoryPoint.timestamp lastPoint =? timestamp
    | None => false
    end in
  if duplicate then prev
  else
    let newPoint := {| HistoryPoint.timestamp := timestamp;
                       HistoryPoint.reading := reading;
                       HistoryPoint.time := now |} in
    let updated := prev ++ [newPoint] in
    if (MAX_HISTORY_POINTS <? List.length updated)%nat
    then JS.slice (- Z.of_nat MAX_HISTORY_POINTS) None updated
    else updated.

(** The z-score part of the stream handler, for a payload that is
    neither [null] nor [undefined]:
    [selectedSymbol1 && data.zscore?.[selectedSymbol1] !== undefined]. *)
Definition onZscore (selectedSymbol1 : string) (data : JS.value)
  (now : JS.number) (prev : list HistoryPoint.t) : list HistoryPoint.t :=
  let zscore := JS.get_opt selectedSymbol1 (JS.prop "zscore" data) in
  if negb (selectedSymbol1 =? EmptyString) && negb (JS.is_undefined zscore)
  then pushHistory (JS.prop "timestamp" data) zscore now prev
  else prev.

(** [`${selectedSymbol1}_${selectedSymbol2}`] *)
Definition pairKey (selectedSymbol1 selectedSymbol2 : string) : string :=
  (selectedSymbol1 ++ "_" ++ selectedSymbol2)%string.

(** The spread part of the stream handler. *)
Definition onSpread (selectedSymbol1 selectedSymbol2 : string)
  (data : JS.value) (now : JS.number) (prev : list HistoryPoint.t)
  : list HistoryPoint.t :=
  let key := pairKey selectedSymbol1 selectedSymbol2 in
  let spread := JS.get_opt key (JS.prop "spread" data) in
  if negb (selectedSymbol1 =? EmptyString)
     && negb (selectedSymbol2 =? EmptyString)
     && negb (JS.is_undefined spread)
  then pushHistory (JS.prop "timestamp" data) spread now prev
  else prev.

(** [getPairKey]; [None] is [null]. *)
Definition getPairKey (selectedSymbol1 selectedSymbol2 : string)
  : option string :=
  if negb (selectedSymbol1 =? EmptyString)
     && negb (selectedSymbol2 =? EmptyString)
  then Some (pairKey selectedSymbol1 selectedSymbol2)
  else None.

(** [Math.abs] *)
Definition Math_abs (n : JS.number) : JS.number :=
  match n with
  | JS.NaN => JS.NaN
  | JS.NegInf | JS.PosInf => JS.PosInf
  | JS.Fin q => JS.Fin (Qabs q)
  end.

(** [getZScoreColor], on a numeric z-score. *)
Definition getZScoreColor (zscore : JS.number) : string :=
  let abs := Math_abs (JS.number_or zscore (JS.Fin 0)) in
  if JS.gt abs (JS.Fin (5 # 2)) then "#DC2626"
  else if JS.gt abs (JS.Fin 2) then "#EF4444"
  else if JS.gt abs (JS.Fin (3 # 2)) then "#F59E0B"
  else if JS.gt abs (JS.Fin 1) then "#FBBF24"
  else "#3B82F6".




(** The shared triggered-alert array as the running page treats it: the
    hook's stream listener replaces it, and each render of the
    notifications widget, which is handed that very array, sorts it in
    place. *)
Inductive page_step : Type :=
| Message (event : parsed_message)
| Render.

Definition page_apply (s : page_step) (st : alerts_state)
  : option alerts_state :=
  match s with
  | Message event => Some (useAlertsManager.onmessage event st)
  | Render =>
      match NotificationsWidget.render (triggeredAlerts st) with
      | None => None
      | Some sorted => Some (setTriggeredAlerts (fun _ => sorted) st)
      end
  end.

Fixpoint page_run (steps : list page_step) (st : alerts_state)
  : option alerts_state :=
  match steps with
  | [] => Some st
  | s :: rest =>
      match page_apply s st with
      | None => None
      | Some st' => page_run rest st'
      end
  end.

End Dashboard.

End TradingDashboard.

(** ** Rolling statistics *)

Module RollingStats.

Local Open Scope R_scope.

(** Modelled from the spec: the statistics engine runs on the server and
    is not among the sources; these definitions follow sections 3 and 4.2
    of the design document.  A buffer is the window of ticks of one
    symbol, oldest first. *)
Record Tick : Type := {
  symbol : string;
  price : R;
  volume : R;
  timestamp : Z
}.

Definition SymbolBuffer : Type := list Tick.

(** Modelled from the spec: the minimum window, default 20. *)
Definition MIN_WINDOW : nat := 20.

Definition tick_count (b : SymbolBuffer) : nat := List.length b.

Definition prices (b : SymbolBuffer) : list R := map price b.

Definition sum (xs : list R) : R := fold_right Rplus 0 xs.

(** Modelled from the spec: mean over the current window. *)
Definition mean (b : SymbolBuffer) : R :=
  sum (prices b) / INR (tick_count b).

(** Modelled from the spec: sample standard deviation over the window. *)
Definition std (b : SymbolBuffer) : R :=
  sqrt (sum (map (fun x => (x - mean b) * (x - mean b)) (prices b))
        / (INR (tick_count b) - 1)).

Definition latest_price (b : SymbolBuffer) : R := last (prices b) 0.

(** Modelled from the spec: [zscore = (latest_price - mean) / std],
    undefined ([None]) when [std] is 0 or the window is shorter than the
    minimum. *)
Definition zscore (b : SymbolBuffer) : option R :=
  if (tick_count b <? MIN_WINDOW)%nat then None
  else if Req_dec_T (std b) 0 then None
  else Some ((latest_price b - mean b) / std b).

End RollingStats.

(** ** A runtime to run the model on *)

(** Integer numerals, ASCII letters, a 24-hour UTC clock and a plain
    structural serialiser: enough to evaluate the components on concrete
    messages.  No theorem depends on these choices. *)
Module SampleRuntime.

Definition is_digit (c : ascii) : bool :=
  let n := nat_of_ascii c in ((48 <=? n) && (n <=? 57))%nat.

Fixpoint digits_value (acc : Z) (s : string) : Z :=
  match s with
  | EmptyString => acc
  | String c rest =>
      if is_digit c
      then digits_value (acc * 10 + Z.of_nat (nat_of_ascii c - 48)) rest
      else acc
  end.

(** The leading integer numeral of a string, NaN when there is none. *)
Definition parse_integer (s : string) : JS.number :=
  match s with
  | String "-"%char (String c rest) =>
      if is_digit c then JS.of_Z (- digits_value 0 (String c rest))
      else JS.NaN
  | String c _ =>
      if is_digit c then JS.of_Z (digits_value 0 s) else JS.NaN
  | EmptyString => JS.NaN
  end.

Definition upper_ascii (c : ascii) : ascii :=
  let n := nat_of_ascii c in
  if ((97 <=? n) && (n <=? 122))%nat then ascii_of_nat (n - 32) else c.

Fixpoint upper (s : string) : string :=
  match s with
  | EmptyString => EmptyString
  | String c rest => String (upper_ascii c) (upper rest)
  end.

Definition two_digits (z : Z) : string :=
  ((if (z <? 10)%Z then "0" else EmptyString) ++ string_of_Z z)%string.

(** [hh:mm:ss] of a count of milliseconds since midnight UTC. *)
Definition clock (v : JS.value) : string :=
  match v with
  | JS.VNumber (JS.Fin q) =>
      let s := ((Qnum q / Z.pos (Qden q) / 1000) mod 86400)%Z in
      (two_digits (s / 3600) ++ ":" ++ two_digits (s / 60 mod 60)
       ++ ":" ++ two_digits (s mod 60))%string
  | _ => "Invalid Date"
  end.

Definition show_number (n : JS.number) : string :=
  match n with
  | JS.Fin q =>
      if (Z.pos (Qden q) =? 1)%Z then string_of_Z (Qnum q)
      else (string_of_Z (Qnum q) ++ "/" ++ string_of_Z (Z.pos (Qden q)))%string
  | _ => "null"
  end.

Fixpoint stringify (v : JS.value) : option string :=
  match v with
  | JS.VUndefined => None
  | JS.VNull => Some "null"
  | JS.VBool b => Some (if b then "true" else "false")
  | JS.VNumber n => Some (show_number n)
  | JS.VString s => Some (dquote ++ s ++ dquote)%string
  | JS.VArray items =>
      let fix elements (l : list JS.value) : string :=
        match l with
        | [] => EmptyString
        | x :: rest =>
            ((match stringify x with Some s => s | None => "null" end)
             ++ (match rest with [] => EmptyString | _ => "," end)
             ++ elements rest)%string
        end in
      Some ("[" ++ elements items ++ "]")%string
  | JS.VObject fields =>
      let fix members (l : list (string * JS.value)) : string :=
        match l with
        | [] => EmptyString
        | (k, x) :: rest =>
            ((match stringify x with
              | Some s => dquote ++ k ++ dquote ++ ":" ++ s ++ ";"
              | None => EmptyString
              end) ++ members rest)%string
        end in
      Some ("{" ++ members fields ++ "}")%string
  end.

Definition to_string (v : JS.value) : string :=
  match v with
  | JS.VString s => s
  | _ => match stringify v with Some s => s | None => "undefined" end
  end.

Definition runtime : Runtime := {|
  parseFloatString := parse_integer;
  StringToNumber := parse_integer;
  ToString := to_string;
  JSON_stringify := stringify;
  Date_toLocaleTimeString := clock;
  Date_toLocaleString := clock;
  toUpperCase := upper
|}.

End SampleRuntime.

(** ** The modal manager *)

Module ModalManager.

Record modal : Type := {
  isOpen : bool;
  props : JS.value
}.

(** The [modals] object: modal id to modal, in insertion order. *)
Definition modals_t : Type := list (string * modal).

(** [modals[modalId]] *)
Fixpoint lookup (modalId : string) (modals : modals_t) : option modal :=
  match modals with
  | [] => None
  | (k, m) :: rest => if k =? modalId then Some m else lookup modalId rest
  end.

(** [{ ...prev, [modalId]: m }]: an existing key keeps its place and
    takes the new value, a new key goes last. *)
Fixpoint assign (modalId : string) (m : modal) (prev : modals_t)
  : modals_t :=
  match prev with
  | [] => [(modalId, m)]
  | (k, v) :: rest =>
      if k =? modalId then (k, m) :: rest
      else (k, v) :: assign modalId m rest
  end.

Definition empty_props : JS.value := JS.VObject [].

(** [openModal(modalId, props = {})]: the default applies when the
    argument is [undefined]. *)
Definition openModal (modalId : string) (props : JS.value)
  (prev : modals_t) : modals_t :=
  assign modalId
         {| isOpen := true;
            props := if JS.is_undefined props then empty_props else props |}
         prev.

Definition closeModal (modalId : string) (prev : modals_t) : modals_t :=
  assign modalId {| isOpen := false; props := empty_props |} prev.

(** [modals[modalId]?.isOpen || false] *)
Definition isModalOpen (modalId : string) (modals : modals_t) : bool :=
  match lookup modalId modals with
  | Some m => isOpen m
  | None => false
  end.

(** [modals[modalId]?.props || {}] *)
Definition getModalProps (modalId : string) (modals : modals_t) : JS.value :=
  match lookup modalId modals with
  | Some m => if JS.truthy (props m) then props m else empty_props
  | None => empty_props
  end.

(** A user action on the modal store. *)
Inductive action : Type :=
| OpenModal (modalId : string) (props : JS.value)
| CloseModal (modalId : string).

Definition apply_action (a : action) (modals : modals_t) : modals_t :=
  match a with
  | OpenModal modalId props => openModal modalId props modals
  | CloseModal modalId => closeModal modalId modals
  end.

(** The store after a history of actions, starting from [{}]. *)
Definition modals_after (history : list action) : modals_t :=
  fold_left (fun m a => apply_action a m) history [].

End ModalManager.

(** ** The self-contained alerts widget *)

Module AlertsWidget.

(** [fetchTriggeredAlerts]: the first five of the fetched array; every
    failure clears the list. *)
Definition fetchTriggeredAlerts (r : Http.fetched triggered_payload)
  : list JS.value :=
  match r with
  | Http.NetworkError _ => []
  | Http.Received resp =>
      if negb (Http.ok resp) then []
      else match Http.json resp with
           | Http.JsonError _ => []
           | Http.JsonOk data => JS.slice 0 (Some 5%Z) (triggeredArray data)
           end
  end.

(** [index !== triggeredId] for an array index. *)
Definition index_differs (triggeredId : Alert.id_t) (index : nat) : bool :=
  match triggeredId with
  | Alert.IdNum n => negb (Z.of_nat index =? n)%Z
  | Alert.IdStr _ => true
  end.

(** [Array.prototype.filter] with an index-aware callback that may
    throw. *)
Fixpoint filteri_throwing_from {A : Type} (f : A -> nat -> option bool)
  (i : nat) (l : list A) : option (list A) :=
  match l with
  | [] => Some []
  | x :: rest =>
      match f x i with
      | None => None
      | Some keep =>
          match filteri_throwing_from f (S i) rest with
          | None => None
          | Some rest' => Some (if keep then x :: rest' else rest')
          end
      end
  end.

(** [deleteTriggeredAlert(triggeredId)]:
    [alert.id !== triggeredId && index !== triggeredId]. *)
Definition deleteTriggeredAlert (triggeredId : Alert.id_t)
  (prev : list JS.value) : option (list JS.value) :=
  filteri_throwing_from
    (fun alert index =>
       match useAlertsManager.triggered_id_differs triggeredId alert with
       | None => None
       | Some differs => Some (differs && index_differs triggeredId index)
       end)
    0 prev.

End AlertsWidget.

(** ** The dashboard's stream handler and symbol selectors *)

Module DashboardState.

Record t : Type := {
  analytics : JS.value;
  selectedSymbol1 : string;
  selectedSymbol2 : string;
  zscoreHistory : list HistoryPoint.t;
  spreadHistory : list HistoryPoint.t
}.

(** The arguments of [useState]. *)
Definition initial : t :=
  {| analytics := JS.VNull;
     selectedSymbol1 := EmptyString;
     selectedSymbol2 := EmptyString;
     zscoreHistory := [];
     spreadHistory := [] |}.

(** What reaches the dashboard: a stream message together with the two
    readings of [Date.now()] its updaters take, or a change of one of
    the symbol selectors. *)
Inductive event : Type :=
| Stream (message : parsed_message) (nowZscore nowSpread : JS.number)
| SelectSymbol1 (symbol : string)
| SelectSymbol2 (symbol : string).

Section Handler.
Context {RT : Runtime}.

(** [ws.onmessage].  The analytics updater runs for every parsed
    message; the two history updaters run when the payload can be read,
    a TypeError being caught.  [None] when the analytics updater itself
    throws. *)
Definition onmessage (message : parsed_message)
  (nowZscore nowSpread : JS.number) (st : t) : option t :=
  match message with
  | None => Some st
  | Some data =>
      match TradingDashboard.updateAnalytics data (analytics st) with
      | None => None
      | Some analytics' =>
          if JS.nullish data
          then Some {| analytics := analytics';
                       selectedSymbol1 := selectedSymbol1 st;
                       selectedSymbol2 := selectedSymbol2 st;
                       zscoreHistory := zscoreHistory st;
                       spreadHistory := spreadHistory st |}
          else Some {| analytics := analytics';
                       selectedSymbol1 := selectedSymbol1 st;
                       selectedSymbol2 := selectedSymbol2 st;
                       zscoreHistory :=
                         TradingDashboard.onZscore (selectedSymbol1 st)
                           data nowZscore (zscoreHistory st);
                       spreadHistory :=
                         TradingDashboard.onSpread (selectedSymbol1 st)
                           (selectedSymbol2 st) data nowSpread
                           (spreadHistory st) |}
      end
  end.

(** The [onChange] handlers of the two selectors empty the history that
    belongs to the symbol. *)
Definition apply_event (e : event) (st : t) : option t :=
  match e with
  | Stream message nowZscore nowSpread =>
      onmessage message nowZscore nowSpread st
  | SelectSymbol1 symbol =>
      Some {| analytics := analytics st;
              selectedSymbol1 := symbol;
              selectedSymbol2 := selectedSymbol2 st;
              zscoreHistory := [];
              spreadHistory := spreadHistory st |}
  | SelectSymbol2 symbol =>
      Some {| analytics := analytics st;
              selectedSymbol1 := selectedSymbol1 st;
              selectedSymbol2 := symbol;
              zscoreHistory := zscoreHistory st;
              spreadHistory := [] |}
  end.

Fixpoint run (events : list event) (st : t) : option t :=
  match events with
  | [] => Some st
  | e :: rest =>
      match apply_event e st with
      | None => None
      | Some st' => run rest st'
      end
  end.

End Handler.

End DashboardState.

(** ** Vocabulary of the statements *)

(** The entry under [key] is switched on exactly from [threshold] data
    points on, and says so in its [required] field. *)
Definition gated (caps : list (string * capability)) (key : string)
  (threshold n : Z) : Prop :=
  exists c, capability_of key caps = Some c
            /\ (enabled c = true <-> (threshold <= n)%Z)
            /\ required c = threshold.

(** The documented thresholds, feature by feature. *)
Definition thresholds_hold (caps : list (string * capability)) (n : Z)
  : Prop :=
  gated caps "basicPriceTracking" 1 n
  /\ gated caps "volumeAnalysis" 10 n
  /\ gated caps "zScoreCalculation" 20 n
  /\ gated caps "volatilityMetrics" 50 n
  /\ gated caps "correlationAnalysis" 100 n
  /\ gated caps "spreadTrading" 100 n
  /\ gated caps "hedgeRatioCalc" 150 n
  /\ gated caps "adfStationarity" 200 n
  /\ gated caps "fullHistoricalCharts" 200 n.

(** What a consumer of the gate reads of an entry. *)
Definition gate_view (entry : string * capability) : string * (bool * Z) :=
  (fst entry, (enabled (snd entry), required (snd entry))).

(** Every feature switched on in [caps] is switched on in [caps']. *)
Definition enabled_within (caps caps' : list (string * capability)) : Prop :=
  forall key c, capability_of key caps = Some c -> enabled c = true ->
    exists c', capability_of key caps' = Some c' /\ enabled c' = true.

(** [l] is [l'] with some elements left out, the rest in place. *)
Inductive subsequence {A : Type} : list A -> list A -> Prop :=
| subsequence_nil : subsequence [] []
| subsequence_skip : forall x l l', subsequence l l' -> subsequence l (x :: l')
| subsequence_keep : forall x l l',
    subsequence l l' -> subsequence (x :: l) (x :: l').

(** No two neighbouring points carry the same timestamp text. *)
Fixpoint no_adjacent_duplicates (h : list HistoryPoint.t) : Prop :=
  match h with
  | [] => True
  | p :: rest =>
      match rest with
      | [] => True
      | q :: _ => HistoryPoint.timestamp p <> HistoryPoint.timestamp q
      end /\ no_adjacent_duplicates rest
  end.

(** The alerts a run of stream messages delivers, oldest first. *)
Fixpoint delivered (events : list parsed_message) : list JS.value :=
  match events with
  | [] => []
  | None :: rest => delivered rest
  | Some data :: rest =>
      match JS.get "type" data with
      | Some ty =>
          if JS.is_string "alert_triggered" ty
          then JS.prop "alert" data :: delivered rest
          else delivered rest
      | None => delivered rest
      end
  end.

(** [after] is [before] with exactly the rules of id [alertId] removed:
    the others are all still there, unchanged and in their order. *)
Definition removed_id (alertId : Alert.id_t) (before after : list Alert.t)
  : Prop :=
  after = filter (fun a => negb (Alert.id_eqb (Alert.id a) alertId)) before
  /\ (forall a, In a after <-> In a before /\ Alert.id a <> alertId)
  /\ subsequence after before.

(** A stream message announcing [alert]. *)
Definition alert_message (alert : JS.value) : parsed_message :=
  Some (JS.VObject [("type", JS.VString "alert_triggered");
                    ("alert", alert)]).

(** A triggered alert with a number and a timestamp in seconds. *)
Definition sample_alert (number timestamp : Z) : JS.value :=
  JS.VObject [("id", JS.VNumber (JS.of_Z number));
              ("timestamp", JS.VNumber (JS.of_Z timestamp))].

(** The number of a sample alert. *)
Definition alert_number (alert : JS.value) : Z :=
  match JS.prop "id" alert with
  | JS.VNumber (JS.Fin q) => Qnum q
  | _ => 0%Z
  end.

(** A busy minute on the page: alerts 1 to 100 arrive with timestamps
    1001 to 1100, then alert 101 arrives carrying the older timestamp
    500, then alert 102 with timestamp 2000; the page renders after
    every message. *)
Definition late_alert_trace : list TradingDashboard.page_step :=
  flat_map (fun m => [TradingDashboard.Message m; TradingDashboard.Render])
    (map (fun i => alert_message (sample_alert (Z.of_nat i)
                                               (1000 + Z.of_nat i)))
         (seq 1 100)
     ++ [alert_message (sample_alert 101 500);
         alert_message (sample_alert 102 2000)]).

(** The same messages without any render in between. *)
Definition late_alert_messages : list parsed_message :=
  map (fun i => alert_message (sample_alert (Z.of_nat i)
                                            (1000 + Z.of_nat i)))
      (seq 1 100)
  ++ [alert_message (sample_alert 101 500);
      alert_message (sample_alert 102 2000)].


(** A per-symbol table with one integer entry. *)
Definition table1 (key : string) (n : Z) : JS.value :=
  JS.VObject [(key, JS.VNumber (JS.of_Z n))].

(** Two analytics payloads that differ in the correlation only. *)
Definition snapshot_before : JS.value :=
  JS.VObject [("price", table1 "BTCUSDT" 100);
              ("zscore", table1 "BTCUSDT" 1);
              ("spread", table1 "BTCUSDT_ETHUSDT" 3);
              ("correlation", table1 "BTCUSDT_ETHUSDT" 0)].

Definition snapshot_after : JS.value :=
  JS.VObject [("price", table1 "BTCUSDT" 100);
              ("zscore", table1 "BTCUSDT" 1);
              ("spread", table1 "BTCUSDT_ETHUSDT" 3);
              ("correlation", table1 "BTCUSDT_ETHUSDT" 1)].

(** A payload with a new price. *)
Definition snapshot_repriced : JS.value :=
  JS.VObject [("price", table1 "BTCUSDT" 101);
              ("zscore", table1 "BTCUSDT" 1);
              ("spread", table1 "BTCUSDT_ETHUSDT" 3);
              ("correlation", table1 "BTCUSDT_ETHUSDT" 0)].

(** A payload stamped [timestamp] milliseconds carrying one z-score. *)
Definition zscore_message (timestamp zscore : Z) : JS.value :=
  JS.VObject [("timestamp", JS.VNumber (JS.of_Z timestamp));
              ("zscore", table1 "BTCUSDT" zscore)].

(** [field] of the payload differs between [prev] and [newAnalytics]
    when both are serialised. *)
Definition changed {RT : Runtime} (field : string)
  (prev newAnalytics : JS.value) : bool :=
  TradingDashboard.stringify_differs (JS.prop field prev)
                                     (JS.prop field newAnalytics).










(** Three rules to run deletions on; the third carries the text "1" as
    its id, the first the number 1. *)
Definition sample_rules : list Alert.t :=
  [ {| Alert.id := Alert.IdNum 1; Alert.name := "BTC high";
       Alert.symbol := "BTCUSDT"; Alert.condition := "zscore_above";
       Alert.value := JS.of_Z 2 |};
    {| Alert.id := Alert.IdNum 2; Alert.name := "ETH low";
       Alert.symbol := "ETHUSDT"; Alert.condition := "price_below";
       Alert.value := JS.of_Z 1500 |};
    {| Alert.id := Alert.IdStr "1"; Alert.name := "text id";
       Alert.symbol := "BTCUSDT"; Alert.condition := "price_above";
       Alert.value := JS.of_Z 70000 |} ].

Definition sample_rule : Alert.t :=
  {| Alert.id := Alert.IdNum 7; Alert.name := "SOL high";
     Alert.symbol := "SOLUSDT"; Alert.condition := "price_above";
     Alert.value := JS.of_Z 200 |}.

(** An ok response with an empty body. *)
Definition ok_response : Http.response unit :=
  {| Http.ok := true; Http.status := 200; Http.statusText := "OK";
     Http.errorField := None; Http.json := Http.JsonOk tt |}.

(** No rule of [l] has id [alertId]. *)
Definition id_absent (alertId : Alert.id_t) (l : list Alert.t) : Prop :=
  Forall (fun a => Alert.id a <> alertId) l.

(** The rules list after a delete that went through. *)
Definition rules_after_delete (alertId : Alert.id_t) (st : alerts_state)
  : list Alert.t :=
  alerts (fst (fst (useAlertsManager.deleteAlert
                      alertId (Http.Received ok_response) st))).


(** Both histories of a dashboard state are within bounds. *)
Definition histories_in_bounds (st : DashboardState.t) : Prop :=
  (List.length (DashboardState.zscoreHistory st) <= 100)%nat
  /\ no_adjacent_duplicates (DashboardState.zscoreHistory st)
  /\ (List.length (DashboardState.spreadHistory st) <= 100)%nat
  /\ no_adjacent_duplicates (DashboardState.spreadHistory st).

(** A short session: pick a symbol, receive three payloads, two of them
    within the same second, and one message that does not parse. *)
Definition sample_session : list DashboardState.event :=
  [ DashboardState.SelectSymbol1 "BTCUSDT";
    DashboardState.Stream (Some (zscore_message 5000 1))
                          (JS.of_Z 0) (JS.of_Z 0);
    DashboardState.Stream (Some (zscore_message 5400 2))
                          (JS.of_Z 1) (JS.of_Z 1);
    DashboardState.Stream None (JS.of_Z 2) (JS.of_Z 2);
    DashboardState.Stream (Some (zscore_message 7000 3))
                          (JS.of_Z 3) (JS.of_Z 3) ].


(** An analytics payload on which the two counts differ: no data points
    reported, 200 ticks counted for one symbol. *)
Definition payload_counts_apart : option analytics_counts :=
  Some {| data_points := Some 0%Z;
          tick_count := Some [("BTCUSDT", 200%Z)] |}.

(** An analytics payload on which the two counts coincide at 150. *)
Definition payload_counts_equal : option analytics_counts :=
  Some {| data_points := Some 150%Z;
          tick_count := Some [("BTCUSDT", 100%Z); ("ETHUSDT", 50%Z)] |}.

(** The key and the required threshold of an entry. *)
Definition threshold_view (entry : string * capability) : string * Z :=
  (fst entry, required (snd entry)).


(* ================================================================== *)
(** * Part II: lemmas and theorems *)
(* ================================================================== *)

(** ** Arrays *)

Lemma slice_prefix {A : Type} (n : nat) (l : list A) :
  JS.slice 0 (Some (Z.of_nat n)) l = firstn n l.
Proof.
  unfold JS.slice, JS.clamp_bound. cbv zeta.
  rewrite Z.ltb_irrefl.
  replace (Z.min 0 (Z.of_nat (List.length l))) with 0%Z by lia.
  destruct (Z.of_nat n <? 0)%Z eqn:E; [apply Z.ltb_lt in E; lia|].
  rewrite Z.sub_0_r. change (Z.to_nat 0) with 0%nat. cbn [skipn].
  destruct (Z.min_spec (Z.of_nat n) (Z.of_nat (List.length l)))
    as [[H ->]|[H ->]].
  - now rewrite Nat2Z.id.
  - rewrite Nat2Z.id. rewrite !firstn_all2; trivial; lia.
Qed.

Lemma slice_suffix {A : Type} (n : nat) (l : list A) :
  (0 < n)%nat ->
  JS.slice (- Z.of_nat n) None l = skipn (List.length l - n) l.
Proof.
  intros Hn. unfold JS.slice, JS.clamp_bound.
  destruct (- Z.of_nat n <? 0)%Z eqn:E; [|apply Z.ltb_ge in E; lia].
  set (len := List.length l).
  replace (Z.to_nat (Z.max (Z.of_nat len + - Z.of_nat n) 0))
    with (len - n)%nat by lia.
  apply firstn_all2. rewrite length_skipn. lia.
Qed.

Lemma length_slice_suffix {A : Type} (n : nat) (l : list A) :
  (0 < n)%nat -> (List.length (JS.slice (- Z.of_nat n) None l) <= n)%nat.
Proof.
  intros Hn. rewrite slice_suffix by assumption.
  rewrite length_skipn. lia.
Qed.


Lemma subsequence_filter {A : Type} (f : A -> bool) (l : list A) :
  subsequence (filter f l) l.
Proof.
  induction l as [|x l IH]; simpl; [constructor|].
  destruct (f x); constructor; assumption.
Qed.


(** ** The capability gate *)

Ltac by_key key :=
  unfold UploadPage.capabilitiesFor, OHLCUploadWidget.capabilitiesFor;
  cbn [capability_of];
  repeat match goal with
         | |- context [String.eqb ?k key] => destruct (String.eqb k key)
         | H : context [String.eqb ?k key] |- _ => destruct (String.eqb k key)
         end.

Ltac solve_gated :=
  eexists; split; [reflexivity | split; [simpl; apply Z.leb_le | reflexivity]].

Lemma UploadPage_thresholds (n : Z) :
  thresholds_hold (UploadPage.capabilitiesFor n) n.
Proof. repeat split; try solve_gated. all: simpl; apply Z.leb_le. Qed.

Lemma OHLCUploadWidget_thresholds (n : Z) :
  thresholds_hold (OHLCUploadWidget.capabilitiesFor n) n.
Proof. repeat split; try solve_gated. all: simpl; apply Z.leb_le. Qed.

(** C1.  The capability gate is a function of the data-point count
    alone: at count [n] price tracking is on iff [n >= 1], volume
    analysis iff [n >= 10], z-score iff [n >= 20], volatility iff
    [n >= 50], correlation and spread trading iff [n >= 100], hedge ratio
    iff [n >= 150], ADF stationarity (and the full charts) iff
    [n >= 200], and every entry's [required] field is that threshold.
    This holds for the table of the upload page and for the table of the
    upload widget, and the object either component derives from an
    analytics payload is its table at the count it reads from the
    payload. *)
Theorem capability_gate_thresholds :
  (forall n : Z,
     thresholds_hold (UploadPage.capabilitiesFor n) n
     /\ thresholds_hold (OHLCUploadWidget.capabilitiesFor n) n)
  /\ (forall a : option analytics_counts,
        thresholds_hold (UploadPage.getCapabilities a)
                        (UploadPage.dataPoints a)
        /\ thresholds_hold (OHLCUploadWidget.getCapabilities a)
                           (OHLCUploadWidget.dataPoints a)).
Proof.
  split.
  - intros n. split;
      [apply UploadPage_thresholds | apply OHLCUploadWidget_thresholds].
  - intros a. split;
      [apply UploadPage_thresholds | apply OHLCUploadWidget_thresholds].
Qed.

(** Handed one and the same count, the two tables list the same
    features in the same order with the same enabled flag, the same
    required threshold and the same display name. *)
Lemma capability_tables_agree :
  forall n : Z,
    map gate_view (UploadPage.capabilitiesFor n)
    = map gate_view (OHLCUploadWidget.capabilitiesFor n)
    /\ map (fun e => name (snd e)) (UploadPage.capabilitiesFor n)
       = map (fun e => name (snd e)) (OHLCUploadWidget.capabilitiesFor n)
    /\ forall key : string,
         option_map (fun c => (enabled c, required c))
           (capability_of key (UploadPage.capabilitiesFor n))
         = option_map (fun c => (enabled c, required c))
             (capability_of key (OHLCUploadWidget.capabilitiesFor n)).
Proof.
  intros n. split; [reflexivity|]. split; [reflexivity|].
  intros key. by_key key; reflexivity.
Qed.

(** C6, as the code has it.  The upload page reads the count from
    [data_points], the upload widget sums [tick_count].  On a payload on
    which these two counts are equal, the objects the two
    [getCapabilities] derive list the same features in the same order
    with the same enabled flag, required threshold and display name, so
    looking up any key gives the same flag and threshold in both.  The
    keys and the required thresholds are the same on every pair of
    payloads, equal counts or not. *)
Theorem capability_derivations_agree_at_equal_counts
  (a : option analytics_counts)
  (Hcount : UploadPage.dataPoints a = OHLCUploadWidget.dataPoints a) :
  map gate_view (UploadPage.getCapabilities a)
  = map gate_view (OHLCUploadWidget.getCapabilities a)
  /\ map (fun e => name (snd e)) (UploadPage.getCapabilities a)
     = map (fun e => name (snd e)) (OHLCUploadWidget.getCapabilities a)
  /\ (forall key : string,
        option_map (fun c => (enabled c, required c))
          (capability_of key (UploadPage.getCapabilities a))
        = option_map (fun c => (enabled c, required c))
            (capability_of key (OHLCUploadWidget.getCapabilities a)))
  /\ (forall b b' : option analytics_counts,
        map threshold_view (UploadPage.getCapabilities b)
        = map threshold_view (OHLCUploadWidget.getCapabilities b')).
Proof.
  unfold UploadPage.getCapabilities, OHLCUploadWidget.getCapabilities.
  rewrite Hcount.
  destruct (capability_tables_agree (OHLCUploadWidget.dataPoints a))
    as (Hview & Hname & Hkey).
  split; [exact Hview|]. split; [exact Hname|]. split; [exact Hkey|].
  intros b b'. reflexivity.
Qed.

Lemma capability_derivations_agree_at_equal_counts_witness :
  UploadPage.dataPoints payload_counts_equal
  = OHLCUploadWidget.dataPoints payload_counts_equal
  /\ map gate_view (UploadPage.getCapabilities payload_counts_equal)
     = map gate_view (OHLCUploadWidget.getCapabilities payload_counts_equal).
Proof.
  assert (H : UploadPage.dataPoints payload_counts_equal
              = OHLCUploadWidget.dataPoints payload_counts_equal)
    by reflexivity.
  split; [exact H|].
  exact (proj1 (capability_derivations_agree_at_equal_counts
                  payload_counts_equal H)).
Defined.

(** C6 does not hold as written: on one and the same payload the two
    derivations can disagree on every flag.  With no data points
    reported and 200 ticks counted, the page enables nothing and the
    widget everything. *)
Lemma capability_derivations_differ_on_payload :
  existsb enabled (Object_values
                     (UploadPage.getCapabilities payload_counts_apart))
  = false
  /\ forallb enabled (Object_values
                        (OHLCUploadWidget.getCapabilities
                           payload_counts_apart))
     = true
  /\ map gate_view (UploadPage.getCapabilities payload_counts_apart)
     <> map gate_view (OHLCUploadWidget.getCapabilities payload_counts_apart).
Proof.
  split; [reflexivity|]. split; [reflexivity|].
  intros H. discriminate H.
Qed.

Lemma UploadPage_enabled_within (m n : Z) :
  (m <= n)%Z ->
  enabled_within (UploadPage.capabilitiesFor m) (UploadPage.capabilitiesFor n).
Proof.
  intros Hmn key c. by_key key; intros Hc He; try discriminate;
    injection Hc as <-; simpl in He; apply Z.leb_le in He;
    eexists; (split; [reflexivity | simpl; apply Z.leb_le; lia]).
Qed.

Lemma OHLCUploadWidget_enabled_within (m n : Z) :
  (m <= n)%Z ->
  enabled_within (OHLCUploadWidget.capabilitiesFor m)
                 (OHLCUploadWidget.capabilitiesFor n).
Proof.
  intros Hmn key c. by_key key; intros Hc He; try discriminate;
    injection Hc as <-; simpl in He; apply Z.leb_le in He;
    eexists; (split; [reflexivity | simpl; apply Z.leb_le; lia]).
Qed.

Lemma all_enabled_from_200 (n : Z) :
  (200 <= n)%Z ->
  forallb enabled (Object_values (UploadPage.capabilitiesFor n)) = true
  /\ forallb enabled (Object_values (OHLCUploadWidget.capabilitiesFor n))
     = true.
Proof.
  intros Hn. simpl.
  assert (H : forall k, (k <= 200)%Z -> (k <=? n)%Z = true)
    by (intros k Hk; apply Z.leb_le; lia).
  rewrite !H by lia. split; reflexivity.
Qed.

(** C10.  The gate is monotone in the data-point count: for counts
    [m <= n], every feature enabled at [m] is enabled at [n], in both
    tables; from 200 data points on every feature, ADF included, is
    enabled; at 0 none is. *)
Theorem capability_gate_monotone (m n : Z) (Hmn : (m <= n)%Z) :
  enabled_within (UploadPage.capabilitiesFor m) (UploadPage.capabilitiesFor n)
  /\ enabled_within (OHLCUploadWidget.capabilitiesFor m)
                    (OHLCUploadWidget.capabilitiesFor n)
  /\ ((200 <= n)%Z ->
      forallb enabled (Object_values (UploadPage.capabilitiesFor n)) = true
      /\ forallb enabled (Object_values (OHLCUploadWidget.capabilitiesFor n))
         = true)
  /\ existsb enabled (Object_values (UploadPage.capabilitiesFor 0)) = false
  /\ existsb enabled (Object_values (OHLCUploadWidget.capabilitiesFor 0))
     = false.
Proof.
  split; [now apply UploadPage_enabled_within|].
  split; [now apply OHLCUploadWidget_enabled_within|].
  split; [apply all_enabled_from_200|].
  split; reflexivity.
Qed.

Lemma capability_gate_monotone_witness :
  (150 <= 250)%Z
  /\ (exists c, capability_of "hedgeRatioCalc" (UploadPage.capabilitiesFor 250)
                = Some c /\ enabled c = true)
  /\ forallb enabled (Object_values (UploadPage.capabilitiesFor 250)) = true.
Proof.
  assert (H : (150 <= 250)%Z) by lia.
  destruct (capability_gate_monotone 150 250 H) as (Hup & _ & Hall & _).
  split; [exact H|]. split.
  - apply (Hup "hedgeRatioCalc"
               (UploadPage.entry true 150 "Hedge Ratio" "⚖️"
                                 "Optimal hedge ratios"));
      reflexivity.
  - apply Hall. lia.
Defined.

(** ** Alert rules: deletion *)

Lemma id_eqb_eq (a b : Alert.id_t) : Alert.id_eqb a b = true <-> a = b.
Proof.
  destruct a, b; simpl; split; intros H; try discriminate.
  - apply Z.eqb_eq in H. now subst.
  - injection H as ->. apply Z.eqb_refl.
  - apply String.eqb_eq in H. now subst.
  - injection H as ->. apply String.eqb_refl.
Qed.

Lemma id_eqb_neq (a b : Alert.id_t) : Alert.id_eqb a b = false <-> a <> b.
Proof.
  rewrite <- id_eqb_eq. destruct (Alert.id_eqb a b); split; congruence.
Qed.

Lemma filter_removed_id (alertId : Alert.id_t) (l : list Alert.t) :
  removed_id alertId l (filter (id_differs alertId) l).
Proof.
  split; [reflexivity|]. split.
  - intros a. rewrite filter_In. unfold id_differs.
    rewrite negb_true_iff, id_eqb_neq. reflexivity.
  - apply subsequence_filter.
Qed.

(** C5.  After a successful delete of [alertId] the rules list is the
    list from before with every rule of that id removed, the remaining
    rules unchanged and in their original order; the triggered alerts
    are not touched and a refresh is scheduled.  For the hook a delete
    succeeds when the response is ok; the component also reads the
    response body first. *)
Theorem deleteAlert_removes_exactly_that_id {A : Type}
  (alertId : Alert.id_t) (resp : Http.response A) (st : alerts_state)
  (Hok : Http.ok resp = true) :
  (let '(st', commands, outcome) :=
     useAlertsManager.deleteAlert alertId (Http.Received resp) st in
   removed_id alertId (alerts st) (alerts st')
   /\ triggeredAlerts st' = triggeredAlerts st
   /\ error st' = None
   /\ commands = [FetchAlerts 100]
   /\ outcome = Resolved tt)
  /\ (forall payload, Http.json resp = Http.JsonOk payload ->
      let '(st', commands, outcome) :=
        AlertsManager.deleteAlert alertId (Http.Received resp) st in
      removed_id alertId (alerts st) (alerts st')
      /\ triggeredAlerts st' = triggeredAlerts st
      /\ error st' = None
      /\ commands = [FetchAlerts 100]
      /\ outcome = Resolved tt).
Proof.
  split.
  - unfold useAlertsManager.deleteAlert. rewrite Hok. simpl.
    split; [apply filter_removed_id | repeat split; reflexivity].
  - intros payload Hjson. unfold AlertsManager.deleteAlert.
    rewrite Hok, Hjson. simpl.
    split; [apply filter_removed_id | repeat split; reflexivity].
Qed.

Lemma deleteAlert_removes_exactly_that_id_witness :
  let rules :=
    [ {| Alert.id := Alert.IdNum 1; Alert.name := "BTC high";
         Alert.symbol := "BTCUSDT"; Alert.condition := "zscore_above";
         Alert.value := JS.of_Z 2 |};
      {| Alert.id := Alert.IdNum 2; Alert.name := "ETH low";
         Alert.symbol := "ETHUSDT"; Alert.condition := "price_below";
         Alert.value := JS.of_Z 1500 |};
      {| Alert.id := Alert.IdStr "1"; Alert.name := "text id";
         Alert.symbol := "BTCUSDT"; Alert.condition := "price_above";
         Alert.value := JS.of_Z 70000 |} ] in
  let st := setAlerts (fun _ => rules) initial_alerts_state in
  let resp := {| Http.ok := true; Http.status := 200;
                 Http.statusText := "OK"; Http.errorField := None;
                 Http.json := Http.JsonOk tt |} in
  Http.ok resp = true
  /\ map Alert.id
       (alerts (fst (fst (useAlertsManager.deleteAlert
                            (Alert.IdNum 1) (Http.Received resp) st))))
     = [Alert.IdNum 2; Alert.IdStr "1"].
Proof.
  intros rules st resp.
  assert (Hok : Http.ok resp = true) by reflexivity.
  split; [exact Hok|].
  pose proof (deleteAlert_removes_exactly_that_id
                (Alert.IdNum 1) resp st Hok) as [H _].
  destruct (useAlertsManager.deleteAlert
              (Alert.IdNum 1) (Http.Received resp) st)
    as [[st' commands] outcome] eqn:E.
  destruct H as [[Hfilter _] _]. simpl. rewrite Hfilter. reflexivity.
Defined.

(** ** The triggered-alert history *)

Lemma pushTriggered_firstn (data : JS.value) (prev : list JS.value) :
  pushTriggered data prev = JS.prop "alert" data :: firstn 99 prev.
Proof.
  unfold pushTriggered. f_equal. apply (slice_prefix 99).
Qed.

Lemma length_pushTriggered (data : JS.value) (prev : list JS.value) :
  (List.length (pushTriggered data prev) <= 100)%nat.
Proof.
  rewrite pushTriggered_firstn. cbn [List.length].
  rewrite length_firstn. lia.
Qed.

Lemma onmessage_cases (event : parsed_message) (st : alerts_state) :
  (delivered [event] = []
   /\ useAlertsManager.onmessage event st = st)
  \/ (exists data, event = Some data
      /\ delivered [event] = [JS.prop "alert" data]
      /\ useAlertsManager.onmessage event st
         = setTriggeredAlerts (pushTriggered data) st).
Proof.
  destruct event as [data|]; simpl; [|now left].
  destruct (JS.get "type" data) as [ty|]; [|now left].
  destruct (JS.is_string "alert_triggered" ty); [right|now left].
  exists data. repeat split.
Qed.

Lemma onmessage_keeps_bound (event : parsed_message) (st : alerts_state) :
  (List.length (triggeredAlerts st) <= 100)%nat ->
  (List.length (triggeredAlerts (useAlertsManager.onmessage event st))
   <= 100)%nat.
Proof.
  intros H. destruct (onmessage_cases event st) as [[_ ->]|(d & _ & _ & ->)];
    [assumption|].
  cbn [triggeredAlerts setTriggeredAlerts]. apply length_pushTriggered.
Qed.

Lemma onmessage_keeps_rules (event : parsed_message) (st : alerts_state) :
  alerts (useAlertsManager.onmessage event st) = alerts st.
Proof.
  destruct (onmessage_cases event st) as [[_ ->]|(d & _ & _ & ->)];
    reflexivity.
Qed.

Lemma firstn_app_cons_firstn {A : Type} (X : list A) (a : A) (h : list A) :
  firstn 100 (X ++ a :: firstn 99 h) = firstn 100 (X ++ a :: h).
Proof.
  rewrite !firstn_app. f_equal.
  destruct (100 - List.length X)%nat as [|k] eqn:E; [reflexivity|].
  rewrite !firstn_cons. f_equal. rewrite firstn_firstn. f_equal. lia.
Qed.

Lemma delivered_cons (event : parsed_message) (events : list parsed_message) :
  delivered (event :: events) = delivered [event] ++ delivered events.
Proof.
  destruct event as [data|]; simpl; [|reflexivity].
  destruct (JS.get "type" data) as [ty|]; [|reflexivity].
  destruct (JS.is_string "alert_triggered" ty); reflexivity.
Qed.

(** Without anything else touching the array, the listener keeps the
    hundred alerts delivered last, newest first. *)
Lemma run_history (events : list parsed_message) (st : alerts_state) :
  (List.length (triggeredAlerts st) <= 100)%nat ->
  triggeredAlerts (useAlertsManager.run events st)
  = firstn 100 (rev (delivered events) ++ triggeredAlerts st).
Proof.
  unfold useAlertsManager.run. revert st.
  induction events as [|e events IH]; intros st Hst.
  - cbn [fold_left delivered rev app]. symmetry.
    apply firstn_all2. assumption.
  - cbn [fold_left]. rewrite IH by now apply onmessage_keeps_bound.
    rewrite (delivered_cons e events).
    destruct (onmessage_cases e st) as [[-> ->]|(d & _ & -> & ->)].
    + reflexivity.
    + cbn [triggeredAlerts setTriggeredAlerts].
      rewrite pushTriggered_firstn, rev_app_distr. cbn [rev app].
      rewrite <- app_assoc. cbn [app]. apply firstn_app_cons_firstn.
Qed.

Section Sorting.
Context {RT : Runtime}.

Lemma length_insert_sorted (x : JS.value) (l l' : list JS.value) :
  NotificationsWidget.insert_sorted x l = Some l' ->
  List.length l' = S (List.length l).
Proof.
  revert l'. induction l as [|y l IH]; intros l'; simpl.
  - intros [= <-]. reflexivity.
  - destruct (NotificationsWidget.compareFn x y) as [d|]; [|discriminate].
    destruct (JS.gt d (JS.Fin 0)).
    + destruct (NotificationsWidget.insert_sorted x l) as [r|];
        [|discriminate].
      intros [= <-]. simpl. f_equal. now apply IH.
    + intros [= <-]. reflexivity.
Qed.

Lemma length_sort (l l' : list JS.value) :
  NotificationsWidget.sort l = Some l' -> List.length l' = List.length l.
Proof.
  revert l'. induction l as [|x l IH]; intros l'; simpl.
  - intros [= <-]. reflexivity.
  - destruct (NotificationsWidget.sort l) as [r|]; [|discriminate].
    intros H. apply length_insert_sorted in H. rewrite H. f_equal.
    now apply IH.
Qed.

Lemma length_render (l l' : list JS.value) :
  NotificationsWidget.render l = Some l' -> List.length l' = List.length l.
Proof.
  destruct l as [|x l]; [intros [= <-]; reflexivity|].
  apply length_sort.
Qed.

Lemma page_apply_keeps_bound (s : TradingDashboard.page_step)
  (st st' : alerts_state) :
  (List.length (triggeredAlerts st) <= 100)%nat ->
  TradingDashboard.page_apply s st = Some st' ->
  (List.length (triggeredAlerts st') <= 100)%nat.
Proof.
  intros Hst. destruct s as [event|]; simpl.
  - intros [= <-]. now apply onmessage_keeps_bound.
  - destruct (NotificationsWidget.render (triggeredAlerts st)) as [sorted|]
      eqn:E; [|discriminate].
    intros [= <-]. simpl. apply length_render in E. lia.
Qed.

Lemma page_run_keeps_bound (steps : list TradingDashboard.page_step)
  (st st' : alerts_state) :
  (List.length (triggeredAlerts st) <= 100)%nat ->
  TradingDashboard.page_run steps st = Some st' ->
  (List.length (triggeredAlerts st') <= 100)%nat.
Proof.
  revert st. induction steps as [|s steps IH]; intros st Hst; simpl.
  - intros [= <-]. assumption.
  - destruct (TradingDashboard.page_apply s st) as [st1|] eqn:E;
      [|discriminate].
    apply IH. eapply page_apply_keeps_bound; eassumption.
Qed.

End Sorting.

(** C2.  On the running page eviction is not first in, first out.
    Alerts 1 to 100 arrive,
    then alert 101 with an older timestamp, then alert 102, the page
    rendering after each message.  The history stays at 100 entries and
    alert 102 is kept, but the entry discarded for it is alert 101, the
    one received last before it, while alert 2, received earliest of
    those stored, stays: the notifications widget has sorted the shared
    array in place.  The listener alone, fed the same messages, discards
    alert 2 and keeps alert 101. *)
Theorem late_alert_is_discarded_first :
  option_map (fun st => map alert_number (triggeredAlerts st))
    (@TradingDashboard.page_run SampleRuntime.runtime
       late_alert_trace initial_alerts_state)
  = Some (102%Z :: rev (map Z.of_nat (seq 2 99)))
  /\ map alert_number
       (triggeredAlerts
          (useAlertsManager.run late_alert_messages initial_alerts_state))
     = 102%Z :: 101%Z :: rev (map Z.of_nat (seq 3 98)).
Proof. split; vm_compute; reflexivity. Qed.

(** ** The analytics snapshot *)

Lemma truthy_not_nullish (v : JS.value) :
  JS.truthy v = true -> JS.nullish v = false.
Proof. destruct v; simpl; congruence. Qed.

(** C3, as the code has it.  The stored snapshot is replaced when there
    is none yet, or when the serialised price, z-score or spread of the
    new payload differs from the stored one; it is kept when none of
    these three differs, whatever else (the correlation included) has
    changed. *)
Theorem updateAnalytics_tracks_three_fields {RT : Runtime}
  (newAnalytics prev : JS.value)
  (Hnew : JS.nullish newAnalytics = false) :
  (JS.truthy prev = false ->
   TradingDashboard.updateAnalytics newAnalytics prev = Some newAnalytics)
  /\ (JS.truthy prev = true ->
      changed "price" prev newAnalytics
      || changed "zscore" prev newAnalytics
      || changed "spread" prev newAnalytics = true ->
      TradingDashboard.updateAnalytics newAnalytics prev = Some newAnalytics)
  /\ (JS.truthy prev = true ->
      changed "price" prev newAnalytics = false ->
      changed "zscore" prev newAnalytics = false ->
      changed "spread" prev newAnalytics = false ->
      TradingDashboard.updateAnalytics newAnalytics prev = Some prev).
Proof.
  unfold TradingDashboard.updateAnalytics, changed, JS.get.
  rewrite Hnew. repeat split.
  - intros ->. reflexivity.
  - intros Hp Hc. rewrite Hp, (truthy_not_nullish _ Hp). cbn [negb].
    now rewrite Hc.
  - intros Hp H1 H2 H3. rewrite Hp, (truthy_not_nullish _ Hp). cbn [negb].
    now rewrite H1, H2, H3.
Qed.

Lemma updateAnalytics_tracks_three_fields_witness :
  JS.nullish snapshot_repriced = false
  /\ @TradingDashboard.updateAnalytics SampleRuntime.runtime
       snapshot_repriced snapshot_before
     = Some snapshot_repriced
  /\ @TradingDashboard.updateAnalytics SampleRuntime.runtime
       snapshot_repriced JS.VNull
     = Some snapshot_repriced
  /\ @TradingDashboard.updateAnalytics SampleRuntime.runtime
       snapshot_after snapshot_before
     = Some snapshot_before.
Proof.
  assert (Hnew : JS.nullish snapshot_repriced = false) by reflexivity.
  assert (Hnew' : JS.nullish snapshot_after = false) by reflexivity.
  split; [exact Hnew|].
  destruct (@updateAnalytics_tracks_three_fields SampleRuntime.runtime
              snapshot_repriced snapshot_before Hnew) as (_ & Hchanged & _).
  destruct (@updateAnalytics_tracks_three_fields SampleRuntime.runtime
              snapshot_repriced JS.VNull Hnew) as (Hfirst & _ & _).
  destruct (@updateAnalytics_tracks_three_fields SampleRuntime.runtime
              snapshot_after snapshot_before Hnew') as (_ & _ & Hkept).
  split; [apply Hchanged; reflexivity|].
  split; [apply Hfirst; reflexivity|].
  apply Hkept; reflexivity.
Defined.

(** C3 does not hold as written: a payload whose correlation changed, and nothing
    else, is suppressed. *)
Lemma correlation_change_is_suppressed :
  @TradingDashboard.updateAnalytics SampleRuntime.runtime
    snapshot_after snapshot_before
  = Some snapshot_before
  /\ @changed SampleRuntime.runtime "correlation"
       snapshot_before snapshot_after = true
  /\ JS.prop "correlation" snapshot_after
     <> JS.prop "correlation" snapshot_before
  /\ snapshot_after <> snapshot_before.
Proof.
  split; [reflexivity|]. split; [reflexivity|].
  split; intros H; discriminate H.
Qed.

(** ** The z-score and spread histories *)

Lemma last_point_snoc (l : list HistoryPoint.t) (p : HistoryPoint.t) :
  TradingDashboard.last_point (l ++ [p]) = Some p.
Proof.
  unfold TradingDashboard.last_point. rewrite length_app. simpl.
  replace (List.length l + 1 - 1)%nat with (List.length l) by lia.
  rewrite nth_error_app2 by lia. now rewrite Nat.sub_diag.
Qed.

Lemma last_point_nil : TradingDashboard.last_point [] = None.
Proof. reflexivity. Qed.

Lemma no_adjacent_duplicates_snoc (l : list HistoryPoint.t)
  (q : HistoryPoint.t) :
  no_adjacent_duplicates l ->
  (forall p, TradingDashboard.last_point l = Some p ->
             HistoryPoint.timestamp p <> HistoryPoint.timestamp q) ->
  no_adjacent_duplicates (l ++ [q]).
Proof.
  induction l as [|a l IH]; intros Hl Hlast; [simpl; tauto|].
  destruct l as [|b l].
  - simpl. repeat split. apply Hlast. reflexivity.
  - destruct Hl as [Hab Hrest]. cbn [app no_adjacent_duplicates].
    split; [exact Hab|]. apply IH; [exact Hrest|].
    intros p Hp. apply Hlast.
    unfold TradingDashboard.last_point in *. simpl in *.
    now rewrite Nat.sub_0_r in *.
Qed.

Lemma no_adjacent_duplicates_tail (a : HistoryPoint.t)
  (l : list HistoryPoint.t) :
  no_adjacent_duplicates (a :: l) -> no_adjacent_duplicates l.
Proof. intros [_ H]. exact H. Qed.

Lemma no_adjacent_duplicates_skipn (n : nat) (l : list HistoryPoint.t) :
  no_adjacent_duplicates l -> no_adjacent_duplicates (skipn n l).
Proof.
  revert l. induction n as [|n IH]; intros [|a l] H; simpl; trivial.
  apply IH. eapply no_adjacent_duplicates_tail. exact H.
Qed.

Section Histories.
Context {RT : Runtime}.

Lemma pushHistory_cases (dataTimestamp reading : JS.value) (now : JS.number)
  (prev : list HistoryPoint.t) :
  let newPoint :=
    {| HistoryPoint.timestamp := Date_toLocaleTimeString dataTimestamp;
       HistoryPoint.reading := reading;
       HistoryPoint.time := now |} in
  ((exists lastPoint,
      TradingDashboard.last_point prev = Some lastPoint
      /\ HistoryPoint.timestamp lastPoint
         = Date_toLocaleTimeString dataTimestamp)
   /\ TradingDashboard.pushHistory dataTimestamp reading now prev = prev)
  \/ ((forall lastPoint,
         TradingDashboard.last_point prev = Some lastPoint ->
         HistoryPoint.timestamp lastPoint
         <> Date_toLocaleTimeString dataTimestamp)
      /\ TradingDashboard.pushHistory dataTimestamp reading now prev
         = skipn (List.length (prev ++ [newPoint]) - 100)
                 (prev ++ [newPoint])).
Proof.
  intros newPoint. unfold TradingDashboard.pushHistory.
  fold newPoint.
  destruct (TradingDashboard.last_point prev) as [lastPoint|] eqn:Elast.
  - destruct (HistoryPoint.timestamp lastPoint
              =? Date_toLocaleTimeString dataTimestamp) eqn:E.
    + left. apply String.eqb_eq in E. split; [|reflexivity].
      exists lastPoint. now split.
    + right. apply String.eqb_neq in E. split.
      * intros p [= <-]. exact E.
      * unfold TradingDashboard.MAX_HISTORY_POINTS.
        destruct (100 <? List.length (prev ++ [newPoint]))%nat eqn:Elen.
        -- apply (slice_suffix 100). lia.
        -- apply Nat.ltb_ge in Elen.
           replace (List.length (prev ++ [newPoint]) - 100)%nat
             with 0%nat by lia.
           reflexivity.
  - right. split; [discriminate|].
    unfold TradingDashboard.MAX_HISTORY_POINTS.
    destruct (100 <? List.length (prev ++ [newPoint]))%nat eqn:Elen.
    + apply (slice_suffix 100). lia.
    + apply Nat.ltb_ge in Elen.
      replace (List.length (prev ++ [newPoint]) - 100)%nat
        with 0%nat by lia.
      reflexivity.
Qed.

Lemma pushHistory_keeps_bound (dataTimestamp reading : JS.value)
  (now : JS.number) (prev : list HistoryPoint.t) :
  (List.length prev <= 100)%nat ->
  (List.length (TradingDashboard.pushHistory dataTimestamp reading now prev)
   <= 100)%nat.
Proof.
  intros H.
  destruct (pushHistory_cases dataTimestamp reading now prev)
    as [[_ ->]|[_ ->]]; [assumption|].
  rewrite length_skipn. lia.
Qed.

Lemma pushHistory_keeps_distinct (dataTimestamp reading : JS.value)
  (now : JS.number) (prev : list HistoryPoint.t) :
  no_adjacent_duplicates prev ->
  no_adjacent_duplicates
    (TradingDashboard.pushHistory dataTimestamp reading now prev).
Proof.
  intros H.
  destruct (pushHistory_cases dataTimestamp reading now prev)
    as [[_ ->]|[Hlast ->]]; [assumption|].
  apply no_adjacent_duplicates_skipn.
  apply no_adjacent_duplicates_snoc; [assumption|].
  intros p Hp. simpl. now apply Hlast.
Qed.

Lemma onZscore_cases (selectedSymbol1 : string) (data : JS.value)
  (now : JS.number) (prev : list HistoryPoint.t) :
  TradingDashboard.onZscore selectedSymbol1 data now prev = prev
  \/ exists reading,
       TradingDashboard.onZscore selectedSymbol1 data now prev
       = TradingDashboard.pushHistory (JS.prop "timestamp" data)
                                      reading now prev.
Proof.
  unfold TradingDashboard.onZscore.
  destruct (negb (selectedSymbol1 =? EmptyString) && _); [right|now left].
  eexists. reflexivity.
Qed.

Lemma onSpread_cases (selectedSymbol1 selectedSymbol2 : string)
  (data : JS.value) (now : JS.number) (prev : list HistoryPoint.t) :
  TradingDashboard.onSpread selectedSymbol1 selectedSymbol2 data now prev
  = prev
  \/ exists reading,
       TradingDashboard.onSpread selectedSymbol1 selectedSymbol2 data now prev
       = TradingDashboard.pushHistory (JS.prop "timestamp" data)
                                      reading now prev.
Proof.
  unfold TradingDashboard.onSpread.
  destruct (negb (selectedSymbol1 =? EmptyString) && _ && _);
    [right|now left].
  eexists. reflexivity.
Qed.

Lemma history_insertion_deduplicates_step
  (selectedSymbol1 selectedSymbol2 : string) (data : JS.value)
  (now : JS.number) (prev : list HistoryPoint.t) :
  (List.length prev <= 100)%nat ->
  no_adjacent_duplicates prev ->
  (let h := TradingDashboard.onZscore selectedSymbol1 data now prev in
   (List.length h <= 100)%nat /\ no_adjacent_duplicates h)
  /\ (let h := TradingDashboard.onSpread selectedSymbol1 selectedSymbol2
                 data now prev in
      (List.length h <= 100)%nat /\ no_adjacent_duplicates h).
Proof.
  intros Hlen Hdistinct. split.
  - destruct (onZscore_cases selectedSymbol1 data now prev)
      as [->|[reading ->]]; [now split|].
    split; [now apply pushHistory_keeps_bound
           |now apply pushHistory_keeps_distinct].
  - destruct (onSpread_cases selectedSymbol1 selectedSymbol2 data now prev)
      as [->|[reading ->]]; [now split|].
    split; [now apply pushHistory_keeps_bound
           |now apply pushHistory_keeps_distinct].
Qed.

End Histories.

(** C4, as the code has it.  An insertion is rejected, leaving the
    history unchanged, exactly when the new point's time-of-day text
    equals that of the latest stored point; every other point is
    appended, whatever its timestamp, and the history is cut to its last
    100 points.  So a history of at most 100 points stays so, and a
    history in which no two neighbours carry the same time text stays
    so, under every z-score and spread message. *)
Theorem history_insertion_deduplicates {RT : Runtime}
  (selectedSymbol1 selectedSymbol2 : string) (data : JS.value)
  (now : JS.number) (prev : list HistoryPoint.t)
  (Hlen : (List.length prev <= 100)%nat)
  (Hdistinct : no_adjacent_duplicates prev) :
  let newPoint reading :=
    {| HistoryPoint.timestamp :=
         Date_toLocaleTimeString (JS.prop "timestamp" data);
       HistoryPoint.reading := reading;
       HistoryPoint.time := now |} in
  (forall reading,
     let pushed :=
       TradingDashboard.pushHistory (JS.prop "timestamp" data)
                                    reading now prev in
     ((exists lastPoint,
         TradingDashboard.last_point prev = Some lastPoint
         /\ HistoryPoint.timestamp lastPoint
            = Date_toLocaleTimeString (JS.prop "timestamp" data))
      /\ pushed = prev)
     \/ ((forall lastPoint,
            TradingDashboard.last_point prev = Some lastPoint ->
            HistoryPoint.timestamp lastPoint
            <> Date_toLocaleTimeString (JS.prop "timestamp" data))
         /\ pushed = skipn (List.length (prev ++ [newPoint reading]) - 100)
                           (prev ++ [newPoint reading])))
  /\ (let h := TradingDashboard.onZscore selectedSymbol1 data now prev in
      (List.length h <= 100)%nat /\ no_adjacent_duplicates h)
  /\ (let h := TradingDashboard.onSpread selectedSymbol1 selectedSymbol2
                 data now prev in
      (List.length h <= 100)%nat /\ no_adjacent_duplicates h).
Proof.
  intros newPoint. split; [|split].
  - intros reading. apply pushHistory_cases.
  - destruct (onZscore_cases selectedSymbol1 data now prev)
      as [->|[reading ->]]; [now split|].
    split; [now apply pushHistory_keeps_bound
           |now apply pushHistory_keeps_distinct].
  - destruct (onSpread_cases selectedSymbol1 selectedSymbol2 data now prev)
      as [->|[reading ->]]; [now split|].
    split; [now apply pushHistory_keeps_bound
           |now apply pushHistory_keeps_distinct].
Qed.

Lemma history_insertion_deduplicates_witness :
  let h1 := @TradingDashboard.onZscore SampleRuntime.runtime "BTCUSDT"
              (zscore_message 5000 1) (JS.of_Z 0) [] in
  (List.length h1 <= 100)%nat
  /\ no_adjacent_duplicates h1
  /\ (List.length
        (@TradingDashboard.onZscore SampleRuntime.runtime "BTCUSDT"
           (zscore_message 5400 2) (JS.of_Z 1) h1) <= 100)%nat.
Proof.
  intros h1.
  assert (Hlen : (List.length h1 <= 100)%nat) by (vm_compute; lia).
  assert (Hdistinct : no_adjacent_duplicates h1) by (simpl; tauto).
  split; [exact Hlen|]. split; [exact Hdistinct|].
  apply (@history_insertion_deduplicates SampleRuntime.runtime
           "BTCUSDT" "ETHUSDT" (zscore_message 5400 2) (JS.of_Z 1) h1
           Hlen Hdistinct).
Defined.

(** C4 does not hold as written: a point stamped earlier than the latest stored
    one is appended, and the stored times then run backwards. *)
Lemma earlier_point_is_appended :
  let h1 := @TradingDashboard.onZscore SampleRuntime.runtime "BTCUSDT"
              (zscore_message 5000 1) (JS.of_Z 0) [] in
  let h2 := @TradingDashboard.onZscore SampleRuntime.runtime "BTCUSDT"
              (zscore_message 3000 2) (JS.of_Z 1) h1 in
  (3000 < 5000)%Z
  /\ map HistoryPoint.timestamp h1 = ["00:00:05"]
  /\ map HistoryPoint.timestamp h2 = ["00:00:05"; "00:00:03"]
  /\ h2 <> h1.
Proof.
  intros h1 h2. split; [lia|]. split; [reflexivity|]. split; [reflexivity|].
  intros H. apply (f_equal (@List.length _)) in H. vm_compute in H.
  discriminate H.
Qed.

(** ** The alert creation form *)

Section FormProperties.
Context {RT : Runtime}.





End FormProperties.


(** ** Chart data *)





Section ChartData.
Context {RT : Runtime}.





End ChartData.




(** ** Rolling statistics *)





(* ================================================================== *)
(** * Further properties of the components *)
(* ================================================================== *)

(** ** The triggered-alert history on the page *)

(** X1.  Whatever the interleaving of stream messages and renders, as
    long as no render throws, the triggered-alert history started empty
    never holds more than 100 entries, and no step touches the rules. *)
Theorem history_bounded_on_page {RT : Runtime}
  (steps : list TradingDashboard.page_step) (st' : alerts_state)
  (Hrun : TradingDashboard.page_run steps initial_alerts_state = Some st') :
  (List.length (triggeredAlerts st') <= 100)%nat.
Proof.
  eapply page_run_keeps_bound; [|exact Hrun]. simpl. lia.
Qed.

Lemma history_bounded_on_page_witness :
  exists st',
    @TradingDashboard.page_run SampleRuntime.runtime
      late_alert_trace initial_alerts_state = Some st'
    /\ (List.length (triggeredAlerts st') <= 100)%nat.
Proof.
  destruct (@TradingDashboard.page_run SampleRuntime.runtime
              late_alert_trace initial_alerts_state) as [st'|] eqn:E.
  - exists st'. split; [reflexivity|].
    exact (@history_bounded_on_page SampleRuntime.runtime
             late_alert_trace st' E).
  - vm_compute in E. discriminate E.
Defined.

Lemma run_keeps_rules (events : list parsed_message) (st : alerts_state) :
  alerts (useAlertsManager.run events st) = alerts st.
Proof.
  unfold useAlertsManager.run. revert st.
  induction events as [|e events IH]; intros st; simpl; [reflexivity|].
  rewrite IH. apply onmessage_keeps_rules.
Qed.

(** X2.  Left alone, the stream listener (of the hook and of the
    component alike) keeps exactly the hundred most recently delivered
    alerts, newest first: eviction is first in, first out.  It never
    touches the rules. *)
Theorem listener_keeps_latest_hundred :
  forall (events : list parsed_message) (rules : list Alert.t),
    let st := setAlerts (fun _ => rules) initial_alerts_state in
    triggeredAlerts (useAlertsManager.run events st)
    = firstn 100 (rev (delivered events))
    /\ triggeredAlerts (AlertsManager.run events st)
       = firstn 100 (rev (delivered events))
    /\ alerts (useAlertsManager.run events st) = rules.
Proof.
  intros events rules st.
  assert (H : triggeredAlerts (useAlertsManager.run events st)
              = firstn 100 (rev (delivered events))).
  { rewrite run_history by (simpl; lia).
    cbn [triggeredAlerts st setTriggeredAlerts setAlerts
         initial_alerts_state].
    now rewrite app_nil_r. }
  split; [exact H|]. split; [exact H|].
  apply run_keeps_rules.
Qed.

Section SortPermutes.
Context {RT : Runtime}.

Lemma insert_sorted_permutation (x : JS.value) (l l' : list JS.value) :
  NotificationsWidget.insert_sorted x l = Some l' ->
  Permutation (x :: l) l'.
Proof.
  revert l'. induction l as [|y l IH]; intros l'; simpl.
  - intros [= <-]. apply Permutation_refl.
  - destruct (NotificationsWidget.compareFn x y) as [d|]; [|discriminate].
    destruct (JS.gt d (JS.Fin 0)).
    + destruct (NotificationsWidget.insert_sorted x l) as [r|];
        [|discriminate].
      intros [= <-]. eapply Permutation_trans; [apply perm_swap|].
      apply perm_skip. now apply IH.
    + intros [= <-]. apply Permutation_refl.
Qed.

Lemma sort_permutation (l l' : list JS.value) :
  NotificationsWidget.sort l = Some l' -> Permutation l l'.
Proof.
  revert l'. induction l as [|x l IH]; intros l'; simpl.
  - intros [= <-]. apply Permutation_refl.
  - destruct (NotificationsWidget.sort l) as [r|]; [|discriminate].
    intros H. apply insert_sorted_permutation in H.
    eapply Permutation_trans; [|exact H]. apply perm_skip. now apply IH.
Qed.

End SortPermutes.

(** X3.  A render of the notifications widget only reorders the array it
    was handed: the array holds the same notifications afterwards, each
    as often as before. *)
Theorem render_only_reorders {RT : Runtime}
  (triggered sorted : list JS.value)
  (Hrender : NotificationsWidget.render triggered = Some sorted) :
  Permutation triggered sorted
  /\ List.length sorted = List.length triggered.
Proof.
  split; [|now apply length_render].
  destruct triggered as [|x l].
  - injection Hrender as <-. apply Permutation_refl.
  - now apply sort_permutation.
Qed.

Lemma render_only_reorders_witness :
  let triggered := [sample_alert 1 1001; sample_alert 2 500;
                    sample_alert 3 2000] in
  exists sorted,
    @NotificationsWidget.render SampleRuntime.runtime triggered = Some sorted
    /\ map alert_number sorted = [3; 1; 2]%Z
    /\ Permutation triggered sorted.
Proof.
  intros triggered.
  destruct (@NotificationsWidget.render SampleRuntime.runtime triggered)
    as [sorted|] eqn:E.
  - exists sorted. split; [reflexivity|]. split.
    + vm_compute in E. injection E as <-. reflexivity.
    + exact (proj1 (@render_only_reorders SampleRuntime.runtime
                      triggered sorted E)).
  - vm_compute in E. discriminate E.
Defined.

(** ** Rules: create, delete, fetch *)

Lemma filter_id_absent (alertId : Alert.id_t) (l : list Alert.t) :
  id_absent alertId l -> filter (id_differs alertId) l = l.
Proof.
  induction 1 as [|a l Ha _ IH]; simpl; [reflexivity|].
  unfold id_differs at 1. apply id_eqb_neq in Ha. rewrite Ha. simpl.
  now rewrite IH.
Qed.

Lemma rules_after_delete_filter (alertId : Alert.id_t) (st : alerts_state) :
  rules_after_delete alertId st = filter (id_differs alertId) (alerts st).
Proof. reflexivity. Qed.

(** X4.  Create then delete is a round trip: when a rule with an id no
    other rule carries is inserted anywhere into the list, a successful
    delete of that id gives back the list from before. *)
Theorem delete_after_create_restores
  (a : Alert.t) (before behind : list Alert.t) (st : alerts_state)
  (Hbefore : id_absent (Alert.id a) before)
  (Hbehind : id_absent (Alert.id a) behind)
  (Hst : alerts st = before ++ a :: behind) :
  rules_after_delete (Alert.id a) st = before ++ behind.
Proof.
  rewrite rules_after_delete_filter, Hst, filter_app. simpl.
  unfold id_differs at 2.
  rewrite (proj2 (id_eqb_eq (Alert.id a) (Alert.id a)) eq_refl). simpl.
  now rewrite !filter_id_absent.
Qed.

Lemma delete_after_create_restores_witness :
  let st := setAlerts (fun _ => firstn 2 sample_rules ++ sample_rule
                                  :: skipn 2 sample_rules)
                      initial_alerts_state in
  id_absent (Alert.id sample_rule) (firstn 2 sample_rules)
  /\ id_absent (Alert.id sample_rule) (skipn 2 sample_rules)
  /\ rules_after_delete (Alert.id sample_rule) st = sample_rules.
Proof.
  intros st.
  assert (H1 : id_absent (Alert.id sample_rule) (firstn 2 sample_rules))
    by (repeat constructor; discriminate).
  assert (H2 : id_absent (Alert.id sample_rule) (skipn 2 sample_rules))
    by (repeat constructor; discriminate).
  split; [exact H1|]. split; [exact H2|].
  exact (delete_after_create_restores sample_rule _ _ st H1 H2 eq_refl).
Defined.

(** X5.  Deleting an id no rule carries changes nothing, deleting the
    same id a second time changes nothing more, and two deletes can be
    done in either order. *)
Theorem delete_is_idempotent_and_commutes :
  forall (alertId otherId : Alert.id_t) (st : alerts_state),
    let after id s :=
      fst (fst (useAlertsManager.deleteAlert
                  id (Http.Received ok_response) s)) in
    (id_absent alertId (alerts st) ->
     alerts (after alertId st) = alerts st)
    /\ alerts (after alertId (after alertId st)) = alerts (after alertId st)
    /\ alerts (after alertId (after otherId st))
       = alerts (after otherId (after alertId st))
    /\ id_absent alertId (alerts (after alertId st)).
Proof.
  intros alertId otherId st after. unfold after. cbn.
  split; [apply filter_id_absent|]. split; [|split].
  - apply filter_id_absent. apply Forall_forall. intros a Ha.
    apply filter_In in Ha as [_ Ha]. unfold id_differs in Ha.
    now apply negb_true_iff, id_eqb_neq in Ha.
  - induction (alerts st) as [|a l IH]; simpl; [reflexivity|].
    destruct (id_differs otherId a) eqn:Eo, (id_differs alertId a) eqn:Ea;
      simpl; rewrite ?Eo, ?Ea; now rewrite ?IH.
  - apply Forall_forall. intros a Ha.
    apply filter_In in Ha as [_ Ha]. unfold id_differs in Ha.
    now apply negb_true_iff, id_eqb_neq in Ha.
Qed.

(** X6.  A delete that fails, because the request fails or the response
    is not ok, leaves the rules and the triggered alerts alone, stores
    the message behind a fixed prefix, and asks for an immediate
    refresh.  The hook rejects with the message; the component resolves
    all the same.  And the hook's promise resolves only on an ok
    response. *)
Theorem failed_delete_keeps_rules {A : Type} :
  forall (alertId : Alert.id_t) (r : Http.fetched A) (st : alerts_state),
    let message :=
      match r with
      | Http.NetworkError m => Some m
      | Http.Received resp =>
          if Http.ok resp then None else Some (Http.errorMessage resp)
      end in
    match message with
    | Some m =>
        useAlertsManager.deleteAlert alertId r st
        = (setError (Some ("Failed to delete alert: " ++ m)%string) st,
           [FetchAlerts 0], Threw m)
        /\ AlertsManager.deleteAlert alertId r st
           = (setError (Some ("Failed to delete alert: " ++ m)%string) st,
              [FetchAlerts 0], Resolved tt)
    | None =>
        snd (useAlertsManager.deleteAlert alertId r st) = Resolved tt
        /\ error (fst (fst (useAlertsManager.deleteAlert alertId r st)))
           = None
    end.
Proof.
  intros alertId [m|resp] st; cbn.
  - split; reflexivity.
  - unfold useAlertsManager.deleteAlert, AlertsManager.deleteAlert.
    destruct (Http.ok resp); cbn; split; reflexivity.
Qed.

Lemma fetchAlerts_outcome (r : Http.fetched alerts_payload)
  (st : alerts_state) :
  let st' := useAlertsManager.fetchAlerts r st in
  loading st' = false
  /\ triggeredAlerts st' = triggeredAlerts st
  /\ ((exists resp data,
         r = Http.Received resp /\ Http.ok resp = true
         /\ Http.json resp = Http.JsonOk data
         /\ alerts st' = alertsArray data /\ error st' = None)
      \/ (exists message, error st' = Some message /\ alerts st' = [])).
Proof.
  destruct r as [m|resp]; cbn.
  - repeat split. right. eexists. split; reflexivity.
  - unfold useAlertsManager.fetchAlerts.
    destruct (Http.ok resp) eqn:Eok; cbn.
    + destruct (Http.json resp) as [m|data] eqn:Ej; cbn; repeat split.
      * right. eexists. split; reflexivity.
      * left. exists resp, data. repeat split; assumption.
    + repeat split. right. eexists. split; reflexivity.
Qed.

(** X7.  [fetchAlerts] always ends with the spinner off and never
    touches the triggered alerts.  Either it stores the fetched rules
    and clears the error, which needs an ok response with a readable
    body, or it stores the failure message and empties the rules list. *)
Theorem fetchAlerts_settles :
  forall (r : Http.fetched alerts_payload) (st : alerts_state),
    let st' := useAlertsManager.fetchAlerts r st in
    loading st' = false
    /\ triggeredAlerts st' = triggeredAlerts st
    /\ ((exists resp data,
           r = Http.Received resp /\ Http.ok resp = true
           /\ Http.json resp = Http.JsonOk data
           /\ alerts st' = alertsArray data /\ error st' = None)
        \/ (exists message, error st' = Some message /\ alerts st' = [])).
Proof. intros r st. apply fetchAlerts_outcome. Qed.

(** X8.  The hook's [fetchTriggeredAlerts] changes nothing but the
    triggered alerts, and those only on an ok response with a readable
    body; every failure keeps the history.  The self-contained widget's
    version keeps at most the first five fetched entries and empties its
    list on every failure. *)
Theorem fetchTriggeredAlerts_on_failure :
  forall (r : Http.fetched triggered_payload) (st : alerts_state),
    let st' := useAlertsManager.fetchTriggeredAlerts r st in
    let fetched :=
      match r with
      | Http.Received resp =>
          if Http.ok resp
          then match Http.json resp with
               | Http.JsonOk data => Some (triggeredArray data)
               | Http.JsonError _ => None
               end
          else None
      | Http.NetworkError _ => None
      end in
    alerts st' = alerts st /\ loading st' = loading st
    /\ error st' = error st
    /\ triggeredAlerts st'
       = match fetched with
         | Some items => items
         | None => triggeredAlerts st
         end
    /\ AlertsWidget.fetchTriggeredAlerts r
       = match fetched with
         | Some items => firstn 5 items
         | None => []
         end
    /\ (List.length (AlertsWidget.fetchTriggeredAlerts r) <= 5)%nat.
Proof.
  intros r st.
  assert (H5 : forall l : list JS.value,
             JS.slice 0 (Some 5%Z) l = firstn 5 l)
    by (intros l; apply (slice_prefix 5)).
  destruct r as [m|resp]; cbn.
  - repeat split; lia.
  - unfold useAlertsManager.fetchTriggeredAlerts,
      AlertsWidget.fetchTriggeredAlerts.
    destruct (Http.ok resp); cbn; [|repeat split; lia].
    destruct (Http.json resp) as [m|data]; cbn; [repeat split; lia|].
    rewrite H5. repeat split. rewrite length_firstn. lia.
Qed.

Lemma filter_throwing_spec {A : Type} (f : A -> option bool) (l out : list A) :
  useAlertsManager.filter_throwing f l = Some out ->
  subsequence out l
  /\ (forall x, In x out <-> In x l /\ f x = Some true).
Proof.
  revert out. induction l as [|x l IH]; intros out; simpl.
  - intros [= <-]. split; [constructor|]. intros x. simpl. tauto.
  - destruct (f x) as [keep|] eqn:Ex; [|discriminate].
    destruct (useAlertsManager.filter_throwing f l) as [rest|];
      [|discriminate].
    destruct (IH rest eq_refl) as [Hs Hin].
    intros [= <-]. destruct keep.
    + split; [now constructor|]. intros y. simpl. rewrite Hin.
      split.
      * intros [<-|[? ?]]; auto.
      * intros [[<-|?] ?]; auto.
    + split; [now constructor|]. intros y. rewrite Hin. simpl.
      split.
      * intros [? ?]; auto.
      * intros [[<-|?] ?]; [congruence|auto].
Qed.

Lemma filter_throwing_throws {A : Type} (f : A -> option bool) (l : list A) :
  useAlertsManager.filter_throwing f l = None
  <-> exists x, In x l /\ f x = None.
Proof.
  induction l as [|x l IH]; simpl.
  - split; [discriminate|]. intros [x [[] _]].
  - destruct (f x) as [keep|] eqn:Ex.
    + destruct (useAlertsManager.filter_throwing f l) as [rest|].
      * split; [discriminate|]. intros [y [[<-|Hy] Hf]]; [congruence|].
        assert (Hnone : Some rest = None) by (apply IH; now exists y).
        discriminate Hnone.
      * split; [|reflexivity]. intros _.
        destruct (proj1 IH eq_refl) as [y [Hy Hf]]. exists y. auto.
    + split; [|reflexivity]. intros _. exists x. auto.
Qed.

(** X9.  Dismissing a notification removes exactly the entries whose
    [id] equals the dismissed id: the entries left are those of the
    history whose [id] differs, in their order.  The updater throws
    exactly when the history holds [null] or [undefined]. *)
Theorem dismissTriggeredAlert_removes_by_id :
  forall (alertId : Alert.id_t) (prev : list JS.value),
    match useAlertsManager.dismissTriggeredAlert alertId prev with
    | Some out =>
        subsequence out prev
        /\ (forall x, In x out <->
                      In x prev
                      /\ useAlertsManager.triggered_id_differs alertId x
                         = Some true)
        /\ forallb (fun v => negb (JS.nullish v)) prev = true
    | None => existsb JS.nullish prev = true
    end.
Proof.
  intros alertId prev. unfold useAlertsManager.dismissTriggeredAlert.
  assert (Hn : forall x, useAlertsManager.triggered_id_differs alertId x
                         = None <-> JS.nullish x = true).
  { intros x. unfold useAlertsManager.triggered_id_differs, JS.get.
    destruct (JS.nullish x); [tauto|].
    split; [|discriminate].
    destruct (JS.prop "id" x) as [| | |[| | |q]|s| |]; destruct alertId;
      discriminate. }
  destruct (useAlertsManager.filter_throwing
              (useAlertsManager.triggered_id_differs alertId) prev)
    as [out|] eqn:E.
  - destruct (filter_throwing_spec _ _ _ E) as [Hs Hin].
    split; [exact Hs|]. split; [exact Hin|].
    apply forallb_forall. intros x Hx. apply negb_true_iff.
    destruct (JS.nullish x) eqn:Ex; [|reflexivity].
    assert (Hnone : useAlertsManager.filter_throwing
                      (useAlertsManager.triggered_id_differs alertId) prev
                    = None).
    { apply filter_throwing_throws. exists x. split; [exact Hx|].
      now apply Hn. }
    congruence.
  - apply filter_throwing_throws in E as [x [Hx Hf]].
    apply existsb_exists. exists x. split; [exact Hx|]. now apply Hn.
Qed.

(** X10.  [createAlert] never touches the triggered alerts.  When it
    rejects it has stored the message behind a fixed prefix and left the
    rules and the spinner alone.  When it resolves the awaited refresh
    has run: the spinner is off, and either the error is clear or, the
    refresh having failed, the rules list is empty although the rule was
    created. *)
Theorem createAlert_settles {A : Type} :
  forall (r : Http.fetched A) (refresh : Http.fetched alerts_payload)
         (st : alerts_state),
    let st' := fst (useAlertsManager.createAlert r refresh st) in
    triggeredAlerts st' = triggeredAlerts st
    /\ match snd (useAlertsManager.createAlert r refresh st) with
       | Threw m =>
           alerts st' = alerts st /\ loading st' = loading st
           /\ error st' = Some ("Failed to create alert: " ++ m)%string
       | Resolved _ =>
           loading st' = false /\ (error st' = None \/ alerts st' = [])
       end.
Proof.
  intros r refresh st.
  assert (Hrefresh : forall s,
             let s' := useAlertsManager.fetchAlerts refresh s in
             triggeredAlerts s' = triggeredAlerts s /\ loading s' = false
             /\ (error s' = None \/ alerts s' = [])).
  { intros s. destruct (fetchAlerts_outcome refresh s) as (Hl & Ht & Hc).
    split; [exact Ht|]. split; [exact Hl|].
    destruct Hc as [(resp & data & _ & _ & _ & _ & He)|(m & _ & Ha)];
      [now left | now right]. }
  destruct r as [m|resp]; cbn; [repeat split|].
  unfold useAlertsManager.createAlert.
  destruct (Http.ok resp); cbn; [|repeat split].
  destruct (Http.json resp) as [m|result]; cbn; [repeat split|].
  destruct (Hrefresh (setError None st)) as (Ht & Hl & Hc).
  split; [exact Ht|]. split; assumption.
Qed.

(** ** The progress header *)

Ltac decide_leb :=
  repeat match goal with
         | |- context [(?k <=? ?n)%Z] =>
             first [ rewrite (proj2 (Z.leb_le k n)) by lia
                   | rewrite (proj2 (Z.leb_gt k n)) by lia ]
         end.

Lemma length_filter_map {A : Type} (f : A -> bool) (l : list A) :
  List.length (filter f l)
  = List.length (filter (fun b : bool => b) (map f l)).
Proof.
  induction l as [|x l IH]; simpl; [reflexivity|].
  destruct (f x); simpl; now rewrite IH.
Qed.

Lemma UploadPage_flags (n : Z) :
  map enabled (Object_values (UploadPage.capabilitiesFor n))
  = [(1 <=? n)%Z; (10 <=? n)%Z; (20 <=? n)%Z; (50 <=? n)%Z;
     (100 <=? n)%Z; (100 <=? n)%Z; (150 <=? n)%Z; (200 <=? n)%Z;
     (200 <=? n)%Z].
Proof. reflexivity. Qed.

(** The count of enabled features as a step function of the count. *)
Lemma enabledCount_steps (a : option analytics_counts) :
  let n := UploadPage.dataPoints a in
  let count := UploadPage.enabledCount a in
  ((n < 1)%Z /\ count = 0%nat)
  \/ ((1 <= n < 10)%Z /\ count = 1%nat)
  \/ ((10 <= n < 20)%Z /\ count = 2%nat)
  \/ ((20 <= n < 50)%Z /\ count = 3%nat)
  \/ ((50 <= n < 100)%Z /\ count = 4%nat)
  \/ ((100 <= n < 150)%Z /\ count = 6%nat)
  \/ ((150 <= n < 200)%Z /\ count = 7%nat)
  \/ ((200 <= n)%Z /\ count = 9%nat).
Proof.
  cbv zeta. unfold UploadPage.enabledCount, UploadPage.getCapabilities.
  rewrite length_filter_map, UploadPage_flags.
  generalize (UploadPage.dataPoints a). intros n.
  destruct (Z_lt_le_dec n 1); [left; split; [lia|]; decide_leb; reflexivity|].
  destruct (Z_lt_le_dec n 10);
    [right; left; split; [lia|]; decide_leb; reflexivity|].
  destruct (Z_lt_le_dec n 20);
    [do 2 right; left; split; [lia|]; decide_leb; reflexivity|].
  destruct (Z_lt_le_dec n 50);
    [do 3 right; left; split; [lia|]; decide_leb; reflexivity|].
  destruct (Z_lt_le_dec n 100);
    [do 4 right; left; split; [lia|]; decide_leb; reflexivity|].
  destruct (Z_lt_le_dec n 150);
    [do 5 right; left; split; [lia|]; decide_leb; reflexivity|].
  destruct (Z_lt_le_dec n 200);
    [do 6 right; left; split; [lia|]; decide_leb; reflexivity|].
  do 7 right. split; [lia|]. decide_leb. reflexivity.
Qed.

(** X11.  The upload page counts nine features in all.  The number it
    reports as enabled grows with the data-point count, is nine exactly
    from 200 data points on and zero exactly below one. *)
Theorem enabledCount_follows_count :
  forall a b : option analytics_counts,
    UploadPage.totalCount a = 9%nat
    /\ (UploadPage.enabledCount a <= UploadPage.totalCount a)%nat
    /\ (UploadPage.enabledCount a = 9%nat
        <-> (200 <= UploadPage.dataPoints a)%Z)
    /\ (UploadPage.enabledCount a = 0%nat
        <-> (UploadPage.dataPoints a < 1)%Z)
    /\ ((UploadPage.dataPoints a <= UploadPage.dataPoints b)%Z ->
        (UploadPage.enabledCount a <= UploadPage.enabledCount b)%nat).
Proof.
  intros a b. split; [reflexivity|].
  change (UploadPage.totalCount a) with 9%nat.
  pose proof (enabledCount_steps a) as Ha.
  pose proof (enabledCount_steps b) as Hb.
  cbv zeta in Ha, Hb.
  set (n := UploadPage.dataPoints a) in *.
  set (m := UploadPage.dataPoints b) in *.
  set (ca := UploadPage.enabledCount a) in *.
  set (cb := UploadPage.enabledCount b) in *.
  clearbody n m ca cb.
  split; [lia|]. split; [lia|]. split; [lia|].
  intros Hnm.
  decompose [or and] Ha; decompose [or and] Hb; subst; lia.
Qed.

Lemma fold_left_add_shift (l : list Z) (acc : Z) :
  fold_left (fun a b => (a + b)%Z) l acc
  = (acc + fold_left (fun a b => (a + b)%Z) l 0)%Z.
Proof.
  revert acc. induction l as [|x l IH]; intros acc; simpl; [lia|].
  rewrite (IH (acc + x)%Z), (IH x). lia.
Qed.

Lemma fold_left_add_permutation (l l' : list Z) :
  Permutation l l' ->
  fold_left (fun a b => (a + b)%Z) l 0%Z
  = fold_left (fun a b => (a + b)%Z) l' 0%Z.
Proof.
  induction 1 as [|x l l' _ IH|x y l|l l' l'' _ IH1 _ IH2]; simpl.
  - reflexivity.
  - rewrite (fold_left_add_shift l), (fold_left_add_shift l'). now rewrite IH.
  - rewrite (fold_left_add_shift l (y + x)),
            (fold_left_add_shift l (x + y)). lia.
  - congruence.
Qed.

(** X12.  The widget's data-point count is the total of the per-symbol
    tick counts: it does not depend on the order in which the symbols
    are listed, a further symbol adds its count, and a payload without
    the per-symbol counts gives zero. *)
Theorem widget_count_is_total :
  forall (dp : option Z) (counts counts' : list (string * Z))
         (symbol : string) (c : Z),
    let widget tc :=
      OHLCUploadWidget.dataPoints
        (Some {| data_points := dp; tick_count := tc |}) in
    (Permutation counts counts' ->
     widget (Some counts) = widget (Some counts'))
    /\ widget (Some (counts ++ [(symbol, c)])) = (widget (Some counts) + c)%Z
    /\ widget (Some []) = 0%Z
    /\ widget None = 0%Z
    /\ OHLCUploadWidget.dataPoints None = 0%Z.
Proof.
  intros dp counts counts' symbol c widget. unfold widget. cbn.
  split; [|split; [|repeat split]].
  - intros H. apply fold_left_add_permutation.
    unfold Object_values. now apply Permutation_map.
  - unfold Object_values. rewrite map_app, fold_left_app. reflexivity.
Qed.

(** ** The dashboard's histories and snapshot *)

Section DashboardRuns.
Context {RT : Runtime}.

Lemma apply_event_keeps_bounds (e : DashboardState.event)
  (st st' : DashboardState.t) :
  histories_in_bounds st ->
  DashboardState.apply_event e st = Some st' ->
  histories_in_bounds st'.
Proof.
  intros (Hz & Hzd & Hs & Hsd).
  destruct e as [message nowZ nowS|symbol|symbol]; simpl.
  - unfold DashboardState.onmessage.
    destruct message as [data|]; [|intros [= <-]; repeat split; assumption].
    destruct (TradingDashboard.updateAnalytics data
                (DashboardState.analytics st)) as [an|]; [|discriminate].
    destruct (JS.nullish data);
      intros [= <-]; unfold histories_in_bounds; simpl;
      [repeat split; assumption|].
    destruct (history_insertion_deduplicates_step
                (DashboardState.selectedSymbol1 st)
                (DashboardState.selectedSymbol2 st) data nowZ
                (DashboardState.zscoreHistory st) Hz Hzd) as [[? ?] _].
    destruct (history_insertion_deduplicates_step
                (DashboardState.selectedSymbol1 st)
                (DashboardState.selectedSymbol2 st) data nowS
                (DashboardState.spreadHistory st) Hs Hsd) as [_ [? ?]].
    repeat split; assumption.
  - intros [= <-]. unfold histories_in_bounds. simpl.
    repeat split; trivial; lia.
  - intros [= <-]. unfold histories_in_bounds. simpl.
    repeat split; trivial; lia.
Qed.

End DashboardRuns.

(** X13.  Through every session of stream messages and symbol changes
    that the dashboard survives, the z-score history and the spread
    history each hold at most 100 points, and in neither do two
    neighbouring points carry the same time text. *)
Theorem dashboard_histories_stay_in_bounds {RT : Runtime}
  (events : list DashboardState.event) (st' : DashboardState.t)
  (Hrun : DashboardState.run events DashboardState.initial = Some st') :
  histories_in_bounds st'.
Proof.
  assert (H0 : histories_in_bounds DashboardState.initial)
    by (unfold histories_in_bounds; simpl; repeat split; trivial; lia).
  revert H0 Hrun. generalize DashboardState.initial.
  induction events as [|e events IH]; intros st Hst; simpl.
  - intros [= <-]. exact Hst.
  - destruct (DashboardState.apply_event e st) as [st1|] eqn:E;
      [|discriminate].
    apply IH. eapply apply_event_keeps_bounds; eassumption.
Qed.

Lemma dashboard_histories_stay_in_bounds_witness :
  exists st',
    @DashboardState.run SampleRuntime.runtime sample_session
      DashboardState.initial = Some st'
    /\ map HistoryPoint.timestamp (DashboardState.zscoreHistory st')
       = ["00:00:05"; "00:00:07"]
    /\ histories_in_bounds st'.
Proof.
  destruct (@DashboardState.run SampleRuntime.runtime sample_session
              DashboardState.initial) as [st'|] eqn:E.
  - exists st'. split; [reflexivity|]. split.
    + vm_compute in E. injection E as <-. reflexivity.
    + exact (@dashboard_histories_stay_in_bounds SampleRuntime.runtime
               sample_session st' E).
  - vm_compute in E. discriminate E.
Defined.


Lemma stringify_differs_same {RT : Runtime} (v : JS.value) :
  TradingDashboard.stringify_differs v v = false.
Proof.
  unfold TradingDashboard.stringify_differs.
  destruct (JSON_stringify v); [|reflexivity].
  now rewrite String.eqb_refl.
Qed.

(** X15.  Applying a payload a second time never changes the stored
    snapshot: the state the first application leaves is a fixed point
    of the second. *)
Theorem updateAnalytics_idempotent {RT : Runtime}
  (newAnalytics prev stored : JS.value)
  (Hfirst : TradingDashboard.updateAnalytics newAnalytics prev
            = Some stored) :
  TradingDashboard.updateAnalytics newAnalytics stored = Some stored.
Proof.
  assert (Hnew : TradingDashboard.updateAnalytics newAnalytics newAnalytics
                 = Some newAnalytics).
  { unfold TradingDashboard.updateAnalytics, JS.get.
    destruct (JS.truthy newAnalytics) eqn:En; cbn [negb]; [|reflexivity].
    rewrite (truthy_not_nullish _ En), !stringify_differs_same.
    reflexivity. }
  unfold TradingDashboard.updateAnalytics, JS.get in Hfirst.
  destruct (JS.truthy prev) eqn:Ep; cbn [negb] in Hfirst;
    [|injection Hfirst as <-; exact Hnew].
  rewrite (truthy_not_nullish _ Ep) in Hfirst.
  destruct (JS.nullish newAnalytics) eqn:En; [discriminate|].
  destruct (TradingDashboard.stringify_differs
              (JS.prop "price" prev) (JS.prop "price" newAnalytics)
            || TradingDashboard.stringify_differs
                 (JS.prop "zscore" prev) (JS.prop "zscore" newAnalytics)
            || TradingDashboard.stringify_differs
                 (JS.prop "spread" prev) (JS.prop "spread" newAnalytics))
    eqn:Ec; injection Hfirst as <-; [exact Hnew|].
  unfold TradingDashboard.updateAnalytics, JS.get.
  rewrite Ep, (truthy_not_nullish _ Ep), En. cbn [negb].
  now rewrite Ec.
Qed.

Lemma updateAnalytics_idempotent_witness :
  @TradingDashboard.updateAnalytics SampleRuntime.runtime
    snapshot_repriced snapshot_before = Some snapshot_repriced
  /\ @TradingDashboard.updateAnalytics SampleRuntime.runtime
       snapshot_repriced snapshot_repriced = Some snapshot_repriced.
Proof.
  assert (H : @TradingDashboard.updateAnalytics SampleRuntime.runtime
                snapshot_repriced snapshot_before = Some snapshot_repriced)
    by reflexivity.
  split; [exact H|].
  exact (@updateAnalytics_idempotent SampleRuntime.runtime
           snapshot_repriced snapshot_before snapshot_repriced H).
Defined.

Lemma Qle_bool_abs_opp (q c : Q) :
  Qle_bool (Qabs (- q)) c = Qle_bool (Qabs q) c.
Proof.
  destruct (Qle_bool (Qabs q) c) eqn:E.
  - apply Qle_bool_iff. apply Qle_bool_iff in E. now rewrite Qabs_opp.
  - destruct (Qle_bool (Qabs (- q)) c) eqn:E'; [|reflexivity].
    apply Qle_bool_iff in E'. rewrite Qabs_opp in E'.
    apply Qle_bool_iff in E'. congruence.
Qed.

Lemma Qeq_bool_opp_zero (q : Q) : Qeq_bool (- q) 0 = Qeq_bool q 0.
Proof.
  destruct q as [n d]. unfold Qeq_bool, Qopp. simpl.
  rewrite !Z.mul_1_r. destruct n; reflexivity.
Qed.

(** X16.  The colour of a z-score depends on its magnitude only: a
    z-score and its negative get the same colour, and zero and NaN get
    the calm one. *)
Theorem getZScoreColor_symmetric :
  forall q : Q,
    TradingDashboard.getZScoreColor (JS.Fin (- q))
    = TradingDashboard.getZScoreColor (JS.Fin q)
    /\ TradingDashboard.getZScoreColor JS.NaN = "#3B82F6"
    /\ TradingDashboard.getZScoreColor (JS.Fin 0) = "#3B82F6"
    /\ TradingDashboard.getZScoreColor JS.NegInf
       = TradingDashboard.getZScoreColor JS.PosInf.
Proof.
  intros q. split; [|repeat split].
  unfold TradingDashboard.getZScoreColor, JS.number_or, JS.number_truthy.
  rewrite Qeq_bool_opp_zero.
  destruct (Qeq_bool q 0); cbn [negb]; [reflexivity|].
  unfold TradingDashboard.Math_abs, JS.gt, JS.Qlt_bool.
  now rewrite !Qle_bool_abs_opp.
Qed.

(** X17.  The histories evict first in, first out: an insertion either
    leaves the history as it is, or yields a tail of the old history
    followed by the new point, so points are only ever dropped from the
    old end and the newest point is the last one. *)
Theorem pushHistory_drops_oldest {RT : Runtime} :
  forall (dataTimestamp reading : JS.value) (now : JS.number)
         (prev : list HistoryPoint.t),
    let newPoint :=
      {| HistoryPoint.timestamp := Date_toLocaleTimeString dataTimestamp;
         HistoryPoint.reading := reading;
         HistoryPoint.time := now |} in
    let pushed :=
      TradingDashboard.pushHistory dataTimestamp reading now prev in
    pushed = prev
    \/ (pushed = skipn (List.length prev + 1 - 100) prev ++ [newPoint]
        /\ TradingDashboard.last_point pushed = Some newPoint).
Proof.
  intros dataTimestamp reading now prev newPoint pushed.
  destruct (pushHistory_cases dataTimestamp reading now prev)
    as [[_ H]|[_ H]]; [now left|right].
  fold newPoint in H. fold pushed in H.
  assert (E : pushed
              = skipn (List.length prev + 1 - 100) prev ++ [newPoint]).
  { rewrite H, length_app. cbn [List.length]. rewrite skipn_app.
    f_equal.
    replace (List.length prev + 1 - 100 - List.length prev)%nat
      with 0%nat by lia.
    reflexivity. }
  split; [exact E|]. rewrite E. apply last_point_snoc.
Qed.

(** ** The modal manager *)

Lemma lookup_assign_same (modalId : string) (m : ModalManager.modal)
  (modals : ModalManager.modals_t) :
  ModalManager.lookup modalId (ModalManager.assign modalId m modals)
  = Some m.
Proof.
  induction modals as [|[k v] rest IH]; simpl.
  - now rewrite String.eqb_refl.
  - destruct (k =? modalId) eqn:E; simpl; rewrite E; [reflexivity|exact IH].
Qed.

Lemma lookup_assign_other (modalId other : string) (m : ModalManager.modal)
  (modals : ModalManager.modals_t) :
  other <> modalId ->
  ModalManager.lookup other (ModalManager.assign modalId m modals)
  = ModalManager.lookup other modals.
Proof.
  intros Hne. induction modals as [|[k v] rest IH]; simpl.
  - destruct (modalId =? other) eqn:E; [|reflexivity].
    apply String.eqb_eq in E. congruence.
  - destruct (k =? modalId) eqn:E; simpl.
    + apply String.eqb_eq in E. subst k.
      destruct (modalId =? other) eqn:E'; [|reflexivity].
      apply String.eqb_eq in E'. congruence.
    + destruct (k =? other); [reflexivity|exact IH].
Qed.

Lemma keys_assign (modalId : string) (m : ModalManager.modal)
  (modals : ModalManager.modals_t) :
  NoDup (map fst modals) ->
  NoDup (map fst (ModalManager.assign modalId m modals))
  /\ forall k, In k (map fst (ModalManager.assign modalId m modals))
               <-> k = modalId \/ In k (map fst modals).
Proof.
  induction modals as [|[k v] rest IH]; intros Hnd; simpl.
  - split; [repeat constructor; simpl; tauto|].
    intros k. intuition congruence.
  - inversion Hnd as [|? ? Hk Hrest]; subst.
    destruct (k =? modalId) eqn:E; simpl.
    + apply String.eqb_eq in E. subst k. split; [exact Hnd|].
      intros k. intuition congruence.
    + apply String.eqb_neq in E. destruct (IH Hrest) as [IH1 IH2].
      split.
      * constructor; [|exact IH1]. rewrite IH2.
        intros [->|H]; [now apply E | now apply Hk].
      * intros k'. rewrite IH2. intuition congruence.
Qed.

(** X18.  The modal store reads back what was written: a modal that was
    just opened is open and has the props it was opened with (the empty
    object when none were given); a modal that was just closed is closed
    and has no props; a modal never mentioned is closed and has none. *)
Theorem modal_store_reads_back :
  forall (modalId : string) (props : JS.value)
         (modals : ModalManager.modals_t),
    ModalManager.isModalOpen modalId
      (ModalManager.openModal modalId props modals) = true
    /\ ModalManager.getModalProps modalId
         (ModalManager.openModal modalId props modals)
       = (if JS.truthy props then props else ModalManager.empty_props)
    /\ ModalManager.isModalOpen modalId
         (ModalManager.closeModal modalId modals) = false
    /\ ModalManager.getModalProps modalId
         (ModalManager.closeModal modalId modals)
       = ModalManager.empty_props
    /\ ModalManager.isModalOpen modalId [] = false
    /\ ModalManager.getModalProps modalId [] = ModalManager.empty_props.
Proof.
  intros modalId props modals.
  unfold ModalManager.isModalOpen, ModalManager.getModalProps,
    ModalManager.openModal, ModalManager.closeModal.
  rewrite !lookup_assign_same. cbn.
  repeat split. destruct props; reflexivity.
Qed.

(** X19.  Opening or closing one modal leaves every other modal as it
    was, and the store never lists a modal id twice. *)
Theorem modal_store_frame
  (modalId other : string) (a : ModalManager.action)
  (history : list ModalManager.action)
  (Hother : other <> modalId)
  (Ha : a = ModalManager.CloseModal modalId
        \/ exists props, a = ModalManager.OpenModal modalId props) :
  let before := ModalManager.modals_after history in
  let after := ModalManager.modals_after (history ++ [a]) in
  ModalManager.isModalOpen other after
  = ModalManager.isModalOpen other before
  /\ ModalManager.getModalProps other after
     = ModalManager.getModalProps other before
  /\ NoDup (map fst after).
Proof.
  intros before after.
  assert (Hnd : forall h, NoDup (map fst (ModalManager.modals_after h))).
  { intros h. unfold ModalManager.modals_after.
    assert (H0 : NoDup (map fst (@nil (string * ModalManager.modal))))
      by constructor.
    revert H0. generalize (@nil (string * ModalManager.modal)).
    induction h as [|x h IH]; intros m Hm; simpl; [exact Hm|].
    apply IH. destruct x; simpl; now apply keys_assign. }
  assert (E : after = ModalManager.apply_action a before)
    by (unfold after, before, ModalManager.modals_after;
        now rewrite fold_left_app).
  split; [|split; [|apply Hnd]].
  - rewrite E. unfold ModalManager.isModalOpen.
    destruct Ha as [->|[props ->]]; simpl;
      unfold ModalManager.closeModal, ModalManager.openModal;
      now rewrite lookup_assign_other.
  - rewrite E. unfold ModalManager.getModalProps.
    destruct Ha as [->|[props ->]]; simpl;
      unfold ModalManager.closeModal, ModalManager.openModal;
      now rewrite lookup_assign_other.
Qed.

Lemma modal_store_frame_witness :
  let history := [ModalManager.OpenModal "createAlert" JS.VUndefined;
                  ModalManager.OpenModal "export" (JS.VObject [])] in
  "createAlert" <> "export"
  /\ ModalManager.isModalOpen "createAlert"
       (ModalManager.modals_after
          (history ++ [ModalManager.CloseModal "export"]))
     = true.
Proof.
  intros history.
  assert (Hne : "createAlert" <> "export") by discriminate.
  split; [exact Hne|].
  destruct (modal_store_frame "export" "createAlert"
              (ModalManager.CloseModal "export") history Hne
              (or_introl eq_refl)) as [H _].
  rewrite H. reflexivity.
Defined.

(** ** The creation form after it is opened *)

(** X20.  Opening the modal discards whatever was in the form: the form
    is then the one for the selected symbol, with the default condition
    and threshold text, whatever happened before; and a later edit of
    one input leaves the other three as they were. *)
Theorem open_resets_form {RT : Runtime} :
  forall (events : list AlertModal.form_event) (selectedSymbol1 : string)
         (e : AlertModal.form_event),
    let opened :=
      AlertModal.form_after (events ++ [AlertModal.Open selectedSymbol1]) in
    let edited :=
      AlertModal.form_after
        (events ++ [AlertModal.Open selectedSymbol1; e]) in
    opened = AlertModal.form_after [AlertModal.Open selectedSymbol1]
    /\ AlertModal.condition opened = "zscore_above"
    /\ AlertModal.value opened = "2.0"
    /\ (AlertModal.symbol opened = EmptyString
        <-> selectedSymbol1 = EmptyString)
    /\ match e with
       | AlertModal.Open _ => True
       | AlertModal.ChangeName _ =>
           AlertModal.condition edited = AlertModal.condition opened
           /\ AlertModal.symbol edited = AlertModal.symbol opened
           /\ AlertModal.value edited = AlertModal.value opened
       | AlertModal.ChangeSymbol _ =>
           AlertModal.condition edited = AlertModal.condition opened
           /\ AlertModal.name edited = AlertModal.name opened
           /\ AlertModal.value edited = AlertModal.value opened
       | AlertModal.ChangeCondition _ =>
           AlertModal.name edited = AlertModal.name opened
           /\ AlertModal.symbol edited = AlertModal.symbol opened
           /\ AlertModal.value edited = AlertModal.value opened
       | AlertModal.ChangeValue _ =>
           AlertModal.condition edited = AlertModal.condition opened
           /\ AlertModal.symbol edited = AlertModal.symbol opened
           /\ AlertModal.name edited = AlertModal.name opened
       end.
Proof.
  intros events selectedSymbol1 e opened edited.
  assert (E : opened
              = AlertModal.form_after [AlertModal.Open selectedSymbol1])
    by (unfold opened, AlertModal.form_after; now rewrite fold_left_app).
  assert (E' : edited = AlertModal.apply_event e opened).
  { unfold edited, opened, AlertModal.form_after.
    change [AlertModal.Open selectedSymbol1; e]
      with ([AlertModal.Open selectedSymbol1] ++ [e]).
    now rewrite app_assoc, (fold_left_app _ _ [e]). }
  split; [exact E|]. rewrite E', E. cbn.
  split; [reflexivity|]. split; [reflexivity|]. split.
  - unfold AlertModal.string_or.
    destruct (selectedSymbol1 =? EmptyString) eqn:Es.
    + apply String.eqb_eq in Es. subst. tauto.
    + apply String.eqb_neq in Es. tauto.
  - destruct e; cbn; repeat split.
Qed.

(** X21.  The creation form calls [onSuccess], which closes the modal
    and refreshes the rules, only when the response was ok and its body
    could be read; in every other case the user is shown a message that
    starts with "Error creating alert: ". *)
Theorem onSuccess_only_after_creation :
  forall (r : Http.fetched string) (bodyText : string),
    (snd (AlertModal.afterResponse r bodyText) = true
     <-> exists resp created,
           r = Http.Received resp /\ Http.ok resp = true
           /\ Http.json resp = Http.JsonOk created)
    /\ (snd (AlertModal.afterResponse r bodyText) = false ->
        exists message,
          fst (AlertModal.afterResponse r bodyText)
          = ("Error creating alert: " ++ message)%string).
Proof.
  intros [m|resp] bodyText; cbn.
  - split; [split; [discriminate|]|eexists; reflexivity].
    intros (resp & created & H & _). discriminate H.
  - unfold AlertModal.afterResponse.
    destruct (Http.ok resp) eqn:Eok; cbn.
    + destruct (Http.json resp) as [m|created] eqn:Ej; cbn.
      * split; [split; [discriminate|]|eexists; reflexivity].
        intros (resp' & created & H & _ & Hj). injection H as <-.
        congruence.
      * split; [|discriminate]. split; [|reflexivity].
        intros _. exists resp, created. repeat split; assumption.
    + split; [split; [discriminate|]|eexists; reflexivity].
      intros (resp' & created & H & Hok & _). injection H as <-.
      congruence.
Qed.

(** ** The self-contained widget's triggered alerts *)

Lemma filteri_throwing_from_spec {A : Type} (f : A -> nat -> option bool)
  (l out : list A) (i : nat) :
  AlertsWidget.filteri_throwing_from f i l = Some out ->
  subsequence out l
  /\ (List.length out <= List.length l)%nat
  /\ (forall k x, nth_error l k = Some x -> f x (i + k)%nat = Some false ->
                  (List.length out < List.length l)%nat)
  /\ (forall x, In x out ->
                exists k, nth_error l k = Some x
                          /\ f x (i + k)%nat = Some true)
  /\ (forall k x, nth_error l k = Some x -> f x (i + k)%nat <> None).
Proof.
  revert out i. induction l as [|x l IH]; intros out i; simpl.
  - intros [= <-]. split; [constructor|]. split; [simpl; lia|].
    split; [intros [|k] y H; discriminate H|].
    split; [intros y [] | intros [|k] y H; discriminate H].
  - destruct (f x i) as [keep|] eqn:Ex; [|discriminate].
    destruct (AlertsWidget.filteri_throwing_from f (S i) l) as [rest|] eqn:Er;
      [|discriminate].
    destruct (IH rest (S i) Er) as (Hs & Hle & Hdrop & Hkept & Hdef).
    intros [= <-].
    assert (Hlen : (List.length (if keep then x :: rest else rest)
                    <= S (List.length l))%nat)
      by (destruct keep; simpl; lia).
    split; [destruct keep; now constructor|]. split; [exact Hlen|].
    split; [|split].
    + intros [|k] y Hy Hf.
      * injection Hy as <-. rewrite Nat.add_0_r in Hf.
        rewrite Ex in Hf. injection Hf as ->. simpl. lia.
      * simpl in Hy. replace (i + S k)%nat with (S i + k)%nat in Hf by lia.
        specialize (Hdrop k y Hy Hf). destruct keep; simpl; lia.
    + intros y Hy.
      assert (Hrest : In y rest ->
                      exists k, nth_error (x :: l) k = Some y
                                /\ f y (i + k)%nat = Some true).
      { intros H. destruct (Hkept y H) as (k & Hk & Hf).
        exists (S k). split; [exact Hk|].
        now replace (i + S k)%nat with (S i + k)%nat by lia. }
      destruct keep; [|now apply Hrest].
      destruct Hy as [<-|Hy]; [|now apply Hrest].
      exists 0%nat. split; [reflexivity|]. now rewrite Nat.add_0_r.
    + intros [|k] y Hy.
      * injection Hy as <-. rewrite Nat.add_0_r. congruence.
      * simpl in Hy. replace (i + S k)%nat with (S i + k)%nat by lia.
        now apply Hdef.
Qed.

(** X22.  The widget's [deleteTriggeredAlert] keeps the other entries in
    their order, and every entry it keeps has an [id] different from the
    identifier and sits at a position different from it.  So when the
    identifier is a number that is also a valid position, the entry at
    that position is removed whatever its own [id] is. *)
Theorem deleteTriggeredAlert_by_id_or_position
  (triggeredId : Alert.id_t) (prev out : list JS.value)
  (Hdelete : AlertsWidget.deleteTriggeredAlert triggeredId prev = Some out) :
  subsequence out prev
  /\ (forall x, In x out ->
        useAlertsManager.triggered_id_differs triggeredId x = Some true
        /\ exists k, nth_error prev k = Some x
                     /\ AlertsWidget.index_differs triggeredId k = true)
  /\ (forall n, triggeredId = Alert.IdNum (Z.of_nat n) ->
                (n < List.length prev)%nat ->
                (List.length out < List.length prev)%nat).
Proof.
  unfold AlertsWidget.deleteTriggeredAlert in Hdelete.
  destruct (filteri_throwing_from_spec _ _ _ _ Hdelete)
    as (Hs & _ & Hdrop & Hkept & Hdef).
  split; [exact Hs|]. split.
  - intros x Hx. destruct (Hkept x Hx) as (k & Hk & Hf). simpl in Hf.
    destruct (useAlertsManager.triggered_id_differs triggeredId x)
      as [d|]; [|discriminate].
    injection Hf as Hf. apply andb_true_iff in Hf as [-> Hi].
    split; [reflexivity|]. now exists k.
  - intros n -> Hn.
    destruct (nth_error prev n) as [x|] eqn:Ex;
      [|apply nth_error_None in Ex; lia].
    specialize (Hdef n x Ex). simpl in Hdef.
    apply (Hdrop n x Ex). simpl.
    destruct (useAlertsManager.triggered_id_differs
                (Alert.IdNum (Z.of_nat n)) x) as [d|];
      [|contradiction].
    f_equal. unfold AlertsWidget.index_differs. rewrite Z.eqb_refl.
    now rewrite andb_false_r.
Qed.

Lemma deleteTriggeredAlert_by_id_or_position_witness :
  let prev := [sample_alert 1 1001; sample_alert 7 1002;
               sample_alert 9 1003] in
  exists out,
    AlertsWidget.deleteTriggeredAlert (Alert.IdNum 1) prev = Some out
    /\ map alert_number out = [9%Z]
    /\ subsequence out prev.
Proof.
  intros prev.
  destruct (AlertsWidget.deleteTriggeredAlert (Alert.IdNum 1) prev)
    as [out|] eqn:E.
  - exists out. split; [reflexivity|]. split.
    + vm_compute in E. injection E as <-. reflexivity.
    + exact (proj1 (deleteTriggeredAlert_by_id_or_position
                      (Alert.IdNum 1) prev out E)).
  - vm_compute in E. discriminate E.
Defined.
